(** * Attendless-NIBM: session classification, module mapping and
      attendance arithmetic

    A shallow embedding of the two variants of the attendance calculator:
    - [NIBM.py], the command-line variant (module [Cli]);
    - [attendlessnibm.py], the Streamlit variant (module [Ui]).

    Modelling conventions.
    - Text is a [string] over Rocq's 8-bit [ascii], read as the Unicode code
      points U+0000..U+00FF.  [str.lower], [str.isspace], [str.strip] and the
      character classes of [re] are given their exact values on that range.
    - A spreadsheet cell is either missing ([NaN], what [pd.isna] detects) or
      text ([Str s], where [s] is what [str(cell)] returns).  The texts that
      pandas makes of whole columns at once ([astype(str)] after
      [pd.concat]) are not computed from the cells: the functions that read
      them take them as an argument.
    - A Python [dict] is an association list in insertion order.
    - [float] is IEEE 754 binary64, through [SpecFloat] with precision 53 and
      maximal exponent 1024.
    - Console and widget output is not modelled; reads of standard input and
      of the mapping file are. *)

From Stdlib Require Import String Ascii List ZArith NArith Lia Bool.
From Stdlib Require Import DecimalString Sorting.Mergesort Sorting.Sorted.
From Stdlib Require Import Sorting.Permutation Structures.Orders.
From Stdlib Require Import DecimalNat FinFun.
From Stdlib Require Import Floats.SpecFloat.
Import ListNotations.
Open Scope string_scope.

(** ** Python strings *)

Module Py.

Definition code (c : ascii) : N := N_of_ascii c.

(** [str.isspace] on one character (also the class [\s] of [re]). *)
Definition isspace (c : ascii) : bool :=
  let n := code c in
  ((9 <=? n) && (n <=? 13) || (28 <=? n) && (n <=? 32)
   || (n =? 133) || (n =? 160))%N.

(** [str.lower] on one character: A-Z, and U+00C0..U+00DE without U+00D7. *)
Definition lower_char (c : ascii) : ascii :=
  let n := code c in
  if ((65 <=? n) && (n <=? 90)
      || (192 <=? n) && (n <=? 222) && negb (n =? 215))%N
  then ascii_of_N (n + 32) else c.

Fixpoint lower (s : string) : string :=
  match s with
  | EmptyString => EmptyString
  | String c s' => String (lower_char c) (lower s')
  end.

(** [str.upper] on one character.  U+00DF expands to two characters.  The
    upper-case forms of U+00B5 and U+00FF (U+039C and U+0178) lie outside
    the modelled range: these two characters are left as they are here, and
    a property that names an upper-cased text is stated for texts without
    them. *)
Definition upper_char (c : ascii) : string :=
  let n := code c in
  if (n =? 223)%N then "SS"
  else if ((97 <=? n) && (n <=? 122)
           || (224 <=? n) && (n <=? 254) && negb (n =? 247))%N
  then String (ascii_of_N (n - 32)) EmptyString
  else String c EmptyString.

Fixpoint upper (s : string) : string :=
  match s with
  | EmptyString => EmptyString
  | String c s' => upper_char c ++ upper s'
  end.

(** [s.lstrip()], [s.rstrip()] and [s.strip()]. *)
Fixpoint lstrip (s : string) : string :=
  match s with
  | EmptyString => EmptyString
  | String c s' => if isspace c then lstrip s' else s
  end.

Fixpoint rstrip (s : string) : string :=
  match s with
  | EmptyString => EmptyString
  | String c s' =>
      match rstrip s' with
      | EmptyString => if isspace c then EmptyString else String c EmptyString
      | r => String c r
      end
  end.

Definition strip (s : string) : string := rstrip (lstrip s).

(** [s.startswith(k)]. *)
Fixpoint startswith (k s : string) : bool :=
  match k, s with
  | EmptyString, _ => true
  | String a k', String b s' => Ascii.eqb a b && startswith k' s'
  | String _ _, EmptyString => false
  end.

(** [k in s] for two strings. *)
Fixpoint contains (k s : string) : bool :=
  startswith k s ||
  match s with
  | EmptyString => false
  | String _ s' => contains k s'
  end.

(** [s.replace(" ", "")]. *)
Fixpoint remove_spaces (s : string) : string :=
  match s with
  | EmptyString => EmptyString
  | String c s' =>
      if Ascii.eqb c " " then remove_spaces s' else String c (remove_spaces s')
  end.

(** [x in xs] for a list of strings. *)
Definition in_list (x : string) (xs : list string) : bool :=
  existsb (String.eqb x) xs.

(** Truth value of a string: [bool(s)]. *)
Definition truthy (s : string) : bool :=
  match s with EmptyString => false | _ => true end.

End Py.

(** ** The fragment of [re] used by the program *)

Module Re.

(** Sets of characters that occur in the patterns. *)
Inductive cset : Type :=
| CLit (c : ascii)          (* a literal character *)
| CSpace                    (* \s *)
| CDot                      (* . *)
| CRange (lo hi : ascii).   (* [lo-hi] *)

(** Patterns.  Repetition is over a set of characters only, as in every
    pattern of the program. *)
Inductive regex : Type :=
| Eps
| One (cs : cset)
| Star (cs : cset)          (* greedy cs* *)
| Plus (cs : cset)          (* greedy cs+ *)
| Opt (r : regex)           (* greedy r? *)
| Cat (r1 r2 : regex)
| Alt (r1 r2 : regex)
| Eol.                      (* $ without MULTILINE *)

Definition newline : ascii := ascii_of_N 10.

(** Code point of the simple upper-case form of a character, which the
    engine compares with the bounds of a range under [re.IGNORECASE]; for
    U+00B5 and U+00FF it lies outside the 8-bit range. *)
Definition upper_code (c : ascii) : N :=
  let n := Py.code c in
  if ((97 <=? n) && (n <=? 122)
      || (224 <=? n) && (n <=? 254) && negb (n =? 247))%N then (n - 32)%N
  else if (n =? 255)%N then 376%N
  else if (n =? 181)%N then 924%N
  else n.

(** Does character [c] belong to [cs]?  [icase] is [re.IGNORECASE]. *)
Definition cset_match (icase : bool) (cs : cset) (c : ascii) : bool :=
  match cs with
  | CLit l =>
      if icase then Ascii.eqb (Py.lower_char c) (Py.lower_char l)
      else Ascii.eqb c l
  | CSpace => Py.isspace c
  | CDot => negb (Ascii.eqb c newline)
  | CRange lo hi =>
      let inr n := ((Py.code lo <=? n) && (n <=? Py.code hi))%N in
      if icase then
        inr (Py.code (Py.lower_char c)) || inr (upper_code (Py.lower_char c))
      else inr (Py.code c)
  end.

(** [$]: at the end, or just before a newline that ends the string. *)
Definition at_end (s : string) : bool :=
  match s with
  | EmptyString => true
  | String c EmptyString => Ascii.eqb c newline
  | _ => false
  end.

(** Greedy repetition with backtracking: the longest run first. *)
Fixpoint star (p : ascii -> bool) (s : string)
    (k : string -> option string) : option string :=
  match s with
  | EmptyString => k s
  | String c s' =>
      if p c then
        match star p s' k with
        | Some r => Some r
        | None => k s
        end
      else k s
  end.

(** Backtracking matcher in continuation-passing style: the first success in
    the engine's priority order, as the text left after the match. *)
Fixpoint run (icase : bool) (r : regex) (s : string)
    (k : string -> option string) : option string :=
  match r with
  | Eps => k s
  | One cs =>
      match s with
      | String c s' => if cset_match icase cs c then k s' else None
      | EmptyString => None
      end
  | Star cs => star (cset_match icase cs) s k
  | Plus cs =>
      match s with
      | String c s' =>
          if cset_match icase cs c then star (cset_match icase cs) s' k
          else None
      | EmptyString => None
      end
  | Opt r1 =>
      match run icase r1 s k with
      | Some x => Some x
      | None => k s
      end
  | Cat r1 r2 => run icase r1 s (fun s' => run icase r2 s' k)
  | Alt r1 r2 =>
      match run icase r1 s k with
      | Some x => Some x
      | None => run icase r2 s k
      end
  | Eol => if at_end s then k s else None
  end.

(** A match anchored at the start of [s]: what is left after it. *)
Definition match_at (icase : bool) (r : regex) (s : string) : option string :=
  run icase r s Some.

(** [re.search]: the text from the leftmost position with a match. *)
Fixpoint search (icase : bool) (r : regex) (s : string) : option string :=
  match match_at icase r s with
  | Some _ => Some s
  | None =>
      match s with
      | EmptyString => None
      | String _ s' => search icase r s'
      end
  end.

(** [re.sub(r, repl, s)]: every leftmost non-overlapping match is replaced.
    [skip] counts the characters of [s] that still belong to the match
    replaced last.  An empty match is replaced and the scan moves on by one
    character; no pattern of the program has an empty match. *)
Fixpoint sub_from (icase : bool) (r : regex) (repl : string) (s : string)
    (skip : nat) : string :=
  match s with
  | EmptyString =>
      match match_at icase r s with
      | Some _ => repl
      | None => EmptyString
      end
  | String c s' =>
      match skip with
      | S n => sub_from icase r repl s' n
      | O =>
          match match_at icase r s with
          | Some rest =>
              match String.length s - String.length rest with
              | O => repl ++ String c (sub_from icase r repl s' 0)
              | S n => repl ++ sub_from icase r repl s' n
              end
          | None => String c (sub_from icase r repl s' 0)
          end
      end
  end.

Definition sub (icase : bool) (r : regex) (repl s : string) : string :=
  sub_from icase r repl s 0.

(** A literal word of the pattern. *)
Fixpoint lit (w : string) : regex :=
  match w with
  | EmptyString => Eps
  | String c EmptyString => One (CLit c)
  | String c w' => Cat (One (CLit c)) (lit w')
  end.

(** [(w1|w2|...)]. *)
Fixpoint alts (ws : list string) : regex :=
  match ws with
  | [] => Eps
  | [w] => lit w
  | w :: ws' => Alt (lit w) (alts ws')
  end.

Fixpoint seq (rs : list regex) : regex :=
  match rs with
  | [] => Eps
  | [r] => r
  | r :: rs' => Cat r (seq rs')
  end.

End Re.

(** ** Session labels: exam detection and normalisation

    [is_exam_session] and [normalize_session_text] are the same, line for
    line, in [NIBM.py] and in [attendlessnibm.py]. *)

(** A spreadsheet cell. *)
Inductive cell : Type :=
| NaN
| Str (s : string).

Definition exam_keywords : list string :=
  ["examination"; "exam"; "coursework"; "viva"; "cw"; "course work"].

Definition is_exam_session (text : cell) : bool :=
  match text with
  | NaN => false
  | Str s =>
      let text := Py.lower s in
      existsb (fun keyword => Py.contains keyword text) exam_keywords
  end.

Definition titles : list string := ["Ms"; "Mr"; "Dr"; "Prof"; "Professor"].

Definition qualifiers : list string :=
  ["tutorial"; "practical"; "tute"; "prac"; "lab"].

Definition dash : Re.cset := Re.CLit "-".

(** [(Ms|Mr|Dr|Prof|Professor)\.?\s+[A-Z][a-z]+.*$] *)
Definition instructor_tail : list Re.regex :=
  [Re.alts titles; Re.Opt (Re.One (Re.CLit ".")); Re.Plus Re.CSpace;
   Re.One (Re.CRange "A" "Z"); Re.Plus (Re.CRange "a" "z");
   Re.Star Re.CDot; Re.Eol].

(** [\s*-\s*(Ms|Mr|Dr|Prof|Professor)\.?\s+[A-Z][a-z]+.*$] *)
Definition re_instructor_dash : Re.regex :=
  Re.seq ([Re.Star Re.CSpace; Re.One dash; Re.Star Re.CSpace] ++ instructor_tail).

(** [\s+(Ms|Mr|Dr|Prof|Professor)\.?\s+[A-Z][a-z]+.*$] *)
Definition re_instructor_space : Re.regex :=
  Re.seq (Re.Plus Re.CSpace :: instructor_tail).

(** [\s*-\s*(tutorial|practical|tute|prac|lab)\s*$] *)
Definition re_qualifier_dash : Re.regex :=
  Re.seq [Re.Star Re.CSpace; Re.One dash; Re.Star Re.CSpace;
          Re.alts qualifiers; Re.Star Re.CSpace; Re.Eol].

(** [\s+(tutorial|practical|tute|prac|lab)\s*$] *)
Definition re_qualifier_space : Re.regex :=
  Re.seq [Re.Plus Re.CSpace; Re.alts qualifiers; Re.Star Re.CSpace; Re.Eol].

(** [\s*-\s*$] *)
Definition re_trailing_dash : Re.regex :=
  Re.seq [Re.Star Re.CSpace; Re.One dash; Re.Star Re.CSpace; Re.Eol].

(** [\s+] *)
Definition re_spaces : Re.regex := Re.Plus Re.CSpace.

Definition normalize_session_text (text : cell) : string :=
  match text with
  | NaN => ""
  | Str s =>
      let text := Py.strip s in
      (* Remove instructor names *)
      let text := Re.sub true re_instructor_dash "" text in
      let text := Re.sub true re_instructor_space "" text in
      (* Remove tutorial/practical indicators *)
      let text := Re.sub true re_qualifier_dash "" text in
      let text := Re.sub true re_qualifier_space "" text in
      (* Clean up extra spaces and dashes *)
      let text := Re.sub false re_trailing_dash "" text in
      Py.strip (Re.sub false re_spaces " " text)
  end.

(** The five removal patterns of [normalize_session_text], each with its
    [re.IGNORECASE] flag. *)
Definition removals : list (bool * Re.regex) :=
  [(true, re_instructor_dash); (true, re_instructor_space);
   (true, re_qualifier_dash); (true, re_qualifier_space);
   (false, re_trailing_dash)].

Definition tutorial_keywords : list string :=
  ["tutorial"; "practical"; "tute"; "prac"; "lab"].

Definition is_tutorial_or_practical (c : cell) : bool :=
  match c with
  | NaN => false
  | Str s =>
      let cell := Py.lower s in
      existsb (fun keyword => Py.contains keyword cell) tutorial_keywords
  end.

Definition placeholders : list string :=
  ["inauguration"; "holiday"; "break"; "lunch"; "nan"].


(** ** Exceptions and results *)

Inductive exn : Type :=
| FileNotFoundError
| PermissionError
| JSONDecodeError
| EOFError
| ValueError
| IndexError
| OverflowError
| ZeroDivisionError.

Inductive result (A : Type) : Type :=
| Ok (a : A)
| Raise (e : exn).
Arguments Ok {A} a.
Arguments Raise {A} e.

Definition bind {A B : Type} (m : result A) (f : A -> result B) : result B :=
  match m with
  | Ok a => f a
  | Raise e => Raise e
  end.

Notation "x <- m ;; k" := (bind m (fun x => k))
  (at level 61, m at next level, right associativity).

(** ** The mapping store *)

(** A [dict] from strings to strings, in insertion order. *)
Definition dict : Type := list (string * string).

(** [d[k]], as [None] for a [KeyError]. *)
Fixpoint dict_get (d : dict) (k : string) : option string :=
  match d with
  | [] => None
  | (k', v) :: d' => if String.eqb k' k then Some v else dict_get d' k
  end.

(** [k in d]. *)
Definition dict_mem (d : dict) (k : string) : bool :=
  match dict_get d k with Some _ => true | None => false end.

(** [d[k] = v]: an existing key keeps its place, a new key goes last. *)
Fixpoint dict_set (d : dict) (k v : string) : dict :=
  match d with
  | [] => [(k, v)]
  | (k', v') :: d' =>
      if String.eqb k' k then (k', v) :: d' else (k', v') :: dict_set d' k v
  end.

(** The file [module_mappings.json], by what opening and parsing it gives. *)
Inductive file : Type :=
| Absent                    (* no such file *)
| Unreadable                (* open() raises PermissionError *)
| Corrupt                   (* json.load raises JSONDecodeError *)
| Json (d : dict).          (* json.load returns d *)

(** [open('module_mappings.json', 'r')] followed by [json.load]. *)
Definition open_and_load (f : file) : result dict :=
  match f with
  | Absent => Raise FileNotFoundError
  | Unreadable => Raise PermissionError
  | Corrupt => Raise JSONDecodeError
  | Json d => Ok d
  end.

(** The substring test of the fallback scan, on one stored key. *)
Definition substring_match (normalized key : string) : bool :=
  Py.contains (Py.lower key) normalized || Py.contains normalized (Py.lower key).

(** ** The command-line variant, [NIBM.py] *)

Module Cli.

(** The part of the world the functions act on. *)
Record world : Type := mkWorld {
  mapping_file : file;
  stdin : list string       (* the lines that [input()] will return *)
}.

Definition load_module_mappings (w : world) : result dict :=
  match open_and_load (mapping_file w) with
  | Ok d => Ok d
  | Raise FileNotFoundError => Ok []
  | Raise e => Raise e
  end.

Definition save_module_mappings (mappings : dict) (w : world) : world :=
  mkWorld (Json mappings) (stdin w).

(** Lines 87-88: [mappings[normalized] = module_code] and
    [save_module_mappings(mappings)]. *)
Definition record_mapping (normalized module_code : string)
    (mappings : dict) (w : world) : dict * world :=
  let mappings := dict_set mappings normalized module_code in
  (mappings, save_module_mappings mappings w).

(** Lines 83-92: the prompt loop.  [input()] raises [EOFError] when standard
    input is exhausted. *)
Fixpoint ask_module_code (normalized : string) (mappings : dict)
    (mapping_file : file) (stdin : list string)
    : result (string * dict * world) :=
  match stdin with
  | [] => Raise EOFError
  | line :: stdin' =>
      let module_code := Py.upper (Py.strip line) in
      if Py.truthy module_code then
        let '(mappings, w) :=
          record_mapping normalized module_code mappings
            (mkWorld mapping_file stdin') in
        Ok (module_code, mappings, w)
      else ask_module_code normalized mappings mapping_file stdin'
  end.

(** The scan of lines 69-71. *)
Fixpoint scan (normalized : string) (items : dict) : option string :=
  match items with
  | [] => None
  | (key, code) :: items' =>
      if Py.contains (Py.lower key) normalized
         || Py.contains normalized (Py.lower key)
      then Some code
      else scan normalized items'
  end.

(** The value returned ([None] is Python's [None]), the dictionary after the
    call (it is updated in place) and the world after the call. *)
Definition get_module_code_for_session (session_text : cell)
    (mappings : dict) (w : world) : result (option string * dict * world) :=
  if is_exam_session session_text then Ok (Some "EXAM", mappings, w)
  else
    let normalized := Py.lower (normalize_session_text session_text) in
    if negb (Py.truthy normalized) || Py.in_list normalized placeholders
    then Ok (None, mappings, w)
    else if dict_mem mappings normalized
    then Ok (dict_get mappings normalized, mappings, w)
    else
      match scan normalized mappings with
      | Some code => Ok (Some code, mappings, w)
      | None =>
          r <- ask_module_code normalized mappings (mapping_file w) (stdin w) ;;
          let '(module_code, mappings, w) := r in
          Ok (Some module_code, mappings, w)
      end.

End Cli.

(** ** The Streamlit variant, [attendlessnibm.py] *)

Module Ui.

(** [st.session_state], as far as the functions below write it. *)
Record session_state : Type := mkState {
  ss_mappings : dict
}.

(** [os.path.exists('module_mappings.json')]. *)
Definition exists_file (f : file) : bool :=
  match f with Absent => false | _ => true end.

(** The store returned, and the session state after the call. *)
Definition load_module_mappings (f : file) (st : session_state)
    : dict * session_state :=
  if exists_file f then
    match open_and_load f with
    | Ok mappings => (mappings, mkState mappings)
    | Raise _ => ([], st)
    end
  else ([], st).

(** The scan of lines 90-97. *)
Fixpoint scan (normalized : string) (items : dict) : option string :=
  match items with
  | [] => None
  | (key, code) :: items' =>
      let key_lower := Py.lower key in
      if Py.contains key_lower normalized || Py.contains normalized key_lower
      then Some code
      else if String.eqb (Py.remove_spaces key_lower)
                         (Py.remove_spaces normalized)
      then Some code
      else scan normalized items'
  end.

Definition get_module_code_for_session (session_text : cell)
    (mappings : dict) : option string :=
  if is_exam_session session_text then Some "EXAM"
  else
    let normalized := Py.lower (normalize_session_text session_text) in
    if negb (Py.truthy normalized) || Py.in_list normalized placeholders
    then None
    else if dict_mem mappings normalized
    then dict_get mappings normalized
    else scan normalized mappings.

End Ui.

(** ** The schedule table

    [load_schedule] is the same in both variants once the first sheet has
    been read ([NIBM.py] raises [FileNotFoundError] itself for a missing
    path, inside the same [try]). *)

(** A [DataFrame]: column labels and rows of cells, one cell per column. *)
Record DataFrame : Type := mkFrame {
  columns : list string;
  rows : list (list cell)
}.

Definition isna (c : cell) : bool :=
  match c with NaN => true | Str _ => false end.

(** [str(c)] and [bool(c)] of a cell that is not missing. *)
Definition cell_str (c : cell) : string :=
  match c with NaN => "nan" | Str s => s end.

Definition cell_truthy (c : cell) : bool :=
  match c with NaN => true | Str s => Py.truthy s end.

(** The cell of a row under the first column, which is named [Date]. *)
Definition date_of (row : list cell) : cell := hd NaN row.

(** [[f"Extra_{i}" for i in range(n)]]. *)
Definition extra_columns (n : nat) : list string :=
  map (fun i => "Extra_" ++ NilEmpty.string_of_uint (Nat.to_uint i)) (seq 0 n).

(** [df.dropna(subset=["Date"])]. *)
Definition dropna_date (rs : list (list cell)) : list (list cell) :=
  filter (fun row => negb (isna (date_of row))) rs.

(** The body of the [try], from the parsed sheet on. *)
Definition load_schedule_try (df : DataFrame) : result DataFrame :=
  if Nat.ltb (length (columns df)) 3 then Raise ValueError
  else
    let cols := (["Date"; "Morning"; "Afternoon"]
                 ++ extra_columns (length (columns df) - 3))%list in
    let rs := dropna_date (rows df) in
    match rs with
    | [] => Raise IndexError             (* df.iloc[0] on an empty frame *)
    | first :: rest =>
        if cell_truthy (date_of first)
           && Py.in_list (Py.lower (cell_str (date_of first))) ["date"; "day"]
        then Ok (mkFrame cols rest)
        else Ok (mkFrame cols rs)
    end.

(** [load_schedule]: [source] is what reading the first sheet gives; every
    exception is reported and turned into [None]. *)
Definition load_schedule (source : result DataFrame) : option DataFrame :=
  match (df <- source ;; load_schedule_try df) with
  | Ok df => Some df
  | Raise _ => None
  end.

(** ** Holiday allowance

    [calculate_holiday_allowance] is the same in both variants.  The
    arithmetic is Python's: [int / int] is the correctly rounded binary64
    quotient, [int * float] converts the integer to binary64 first, and
    [int(float)] truncates towards zero. *)

Definition prec : Z := 53.
Definition emax : Z := 1024.
Definition float : Type := spec_float.

(** An infinite result of a conversion or of a true division is an
    [OverflowError]. *)
Definition finite_or_overflow (f : float) : result float :=
  match f with
  | S754_infinity _ => Raise OverflowError
  | _ => Ok f
  end.

(** [float(z)]: round to nearest, ties to even. *)
Definition float_of_int (z : Z) : result float :=
  finite_or_overflow (binary_normalize prec emax z 0 false).

(** The integer [z] as an unrounded operand of a division. *)
Definition exact_operand (z : Z) : float :=
  match z with
  | Z0 => S754_zero false
  | Zpos p => S754_finite false p 0
  | Zneg p => S754_finite true p 0
  end.

(** [a / b] for two integers. *)
Definition int_truediv (a b : Z) : result float :=
  if (b =? 0)%Z then Raise ZeroDivisionError
  else finite_or_overflow (SFdiv prec emax (exact_operand a) (exact_operand b)).

(** [z * f] for an integer and a float. *)
Definition int_mul_float (z : Z) (f : float) : result float :=
  zf <- float_of_int z ;;
  Ok (SFmul prec emax zf f).

(** [int(f)]. *)
Definition int_of_float (f : float) : result Z :=
  match f with
  | S754_zero _ => Ok 0%Z
  | S754_infinity _ => Raise OverflowError
  | S754_nan => Raise ValueError
  | S754_finite s m e =>
      let magnitude :=
        match e with
        | Z0 => Zpos m
        | Zpos _ => (Zpos m * 2 ^ e)%Z
        | Zneg _ => (Zpos m / 2 ^ (- e))%Z
        end in
      Ok (if s then (- magnitude)%Z else magnitude)
  end.

(** The pair returned is [(allowance, min_sessions_needed)]. *)
Definition calculate_holiday_allowance (total_sessions current_missed : Z)
    (min_percentage : Z) : result (Z * Z) :=
  fraction <- int_truediv min_percentage 100 ;;
  product <- int_mul_float total_sessions fraction ;;
  min_sessions_needed <- int_of_float product ;;
  let sessions_attended := (total_sessions - current_missed)%Z in
  let max_total_missed := (total_sessions - min_sessions_needed)%Z in
  let additional_misses_allowed := (max_total_missed - current_missed)%Z in
  Ok (Z.max 0 additional_misses_allowed, min_sessions_needed).

(** The call with the default [min_percentage=80]. *)
Definition holiday_allowance (total_sessions current_missed : Z)
    : result (Z * Z) :=
  calculate_holiday_allowance total_sessions current_missed 80.

(** ** Sessions of a schedule *)

(** Python's [sorted] on strings: a stable merge sort by code points. *)
Module StringOrder <: Orders.TotalLeBool.
Definition t := string.
Definition leb (x y : string) : bool := String.leb x y.
Theorem leb_total : forall x y, leb x y = true \/ leb y x = true.
Proof. exact String.leb_total. Qed.
End StringOrder.

Module StringSort := Mergesort.Sort StringOrder.

(** [set.add]: the elements of a [set] of strings, without repetition. *)
Definition set_add (x : string) (xs : list string) : list string :=
  if Py.in_list x xs then xs else (xs ++ [x])%list.

(** [s.split(sep)] for a separator of one character. *)
Fixpoint split_on (sep : ascii) (s : string) : list string :=
  match s with
  | EmptyString => [EmptyString]
  | String c s' =>
      if Ascii.eqb c sep then EmptyString :: split_on sep s'
      else
        match split_on sep s' with
        | piece :: pieces => String c piece :: pieces
        | [] => [String c EmptyString]
        end
  end.

Definition get_all_session_columns (df : DataFrame) : list string :=
  filter (fun col => Py.in_list col ["Morning"; "Afternoon"]
                     || Py.startswith "Extra_" col)
         (columns df).

(** Position of a column label. *)
Fixpoint index_of (col : string) (cols : list string) : option nat :=
  match cols with
  | [] => None
  | c :: cols' =>
      if String.eqb c col then Some 0
      else match index_of col cols' with
           | Some i => Some (S i)
           | None => None
           end
  end.

(** [row[col]].  The callers take [col] from [df.columns], so the label is
    always found; column labels are distinct in every frame that
    [load_schedule] returns. *)
Definition row_get (df : DataFrame) (row : list cell) (col : string) : cell :=
  match index_of col (columns df) with
  | Some i => nth i row NaN
  | None => NaN
  end.

(** [df[col]]. *)
Definition column (df : DataFrame) (col : string) : list cell :=
  map (fun row => row_get df row col) (rows df).

(** The own text [str(cell)] of every session cell that is not missing,
    column after column. *)
Definition cell_texts (df : DataFrame) : list string :=
  flat_map (fun col =>
              flat_map (fun c => match c with NaN => [] | Str s => [s] end)
                       (column df col))
           (get_all_session_columns df).

(** The test [session and session.lower() not in [...]] of the loops over
    [all_sessions.astype(str)]. *)
Definition worth_mapping (session : string) : bool :=
  Py.truthy session && negb (Py.in_list (Py.lower session) placeholders).

(** The slot shown for a session column; the program renders it with an
    emblem in front: Morning, Afternoon, or [Extra_] and the number. *)
Inductive time_slot : Type :=
| SlotMorning
| SlotAfternoon
| SlotExtra (extra_num : string).

(** [col.split('_')[1] if '_' in col else "0"]. *)
Definition extra_num_of (col : string) : string :=
  if Py.contains "_" col then nth 1 (split_on "_" col) EmptyString else "0".

Definition time_slot_of (col : string) : time_slot :=
  if String.eqb col "Morning" then SlotMorning
  else if String.eqb col "Afternoon" then SlotAfternoon
  else SlotExtra (extra_num_of col).

Record session_detail : Type := mkDetail {
  detail_slot : time_slot;
  detail_text : string;
  detail_type : string
}.

Record day_detail : Type := mkDay {
  day_date : cell;
  day_sessions : list session_detail
}.

(** [str(row[col]) if not pd.isna(row[col]) else ""]. *)
Definition session_text_of (c : cell) : string :=
  match c with NaN => "" | Str s => s end.

Module UiSchedule.

Definition is_for_module (c : cell) (module_name : string) (mappings : dict)
    : bool :=
  match c with
  | NaN => false
  | Str _ =>
      match Ui.get_module_code_for_session c mappings with
      | Some session_module => String.eqb session_module module_name
      | None => false
      end
  end.

(** [get_unmapped_sessions] and [build_module_list] read the frame only
    through [pd.concat([df[col] for col in session_columns]).dropna()] and
    its [.astype(str)]: the texts of the session cells, column after column.
    [pd.concat] brings the columns to one dtype before the texts are made,
    so that a cell of an integer column standing beside a float column is
    read there as [5.0], where [str(row[col])] gives [5].  That conversion
    is pandas' own and is not modelled: the two functions take the texts it
    yields, in their order, as the argument [all_sessions]. *)

(** The loop of lines 157-186: the sessions with no mapping, in order. *)
Fixpoint has_partial_match (normalized : string) (keys : list string) : bool :=
  match keys with
  | [] => false
  | key :: keys' =>
      let key_lower := Py.lower key in
      if Py.contains key_lower normalized || Py.contains normalized key_lower
      then true
      else if String.eqb (Py.remove_spaces key_lower)
                         (Py.remove_spaces normalized)
      then true
      else has_partial_match normalized keys'
  end.

Definition unmapped_entries (sessions : list string) (mappings : dict)
    : list (string * string) :=
  flat_map
    (fun session =>
       let session := Py.strip session in
       if worth_mapping session then
         let normalized := Py.lower (normalize_session_text (Str session)) in
         if is_exam_session (Str session) then []
         else
           let found_mapping :=
             if dict_mem mappings normalized then true
             else has_partial_match normalized (map fst mappings) in
           if found_mapping then [] else [(session, normalized)]
       else [])
    sessions.

(** The loop of lines 189-194: the first entry of each normalised text. *)
Fixpoint unique_by_normalized (seen : list string)
    (unmapped : list (string * string)) : list (string * string) :=
  match unmapped with
  | [] => []
  | (session, normalized) :: rest =>
      if Py.in_list normalized seen then unique_by_normalized seen rest
      else (session, normalized)
           :: unique_by_normalized (set_add normalized seen) rest
  end.

Definition get_unmapped_sessions (all_sessions : list string)
    (mappings : dict) : list (string * string) :=
  unique_by_normalized [] (unmapped_entries all_sessions mappings).

(** The loop of lines 204-209, on the set of modules found so far. *)
Definition add_module (mappings : dict) (modules : list string)
    (session : string) : list string :=
  let session := Py.strip session in
  if worth_mapping session then
    match Ui.get_module_code_for_session (Str session) mappings with
    | Some module_code =>
        if Py.truthy module_code && negb (String.eqb module_code "EXAM")
        then set_add module_code modules
        else modules
    | None => modules
    end
  else modules.

Definition build_module_list (all_sessions : list string) (mappings : dict)
    : list string :=
  StringSort.sort (fold_left (add_module mappings) all_sessions []).

(** The inner loop of lines 224-246 on one row. *)
Definition sessions_of_row (df : DataFrame) (module_name : string)
    (mappings : dict) (row : list cell) : list session_detail :=
  flat_map
    (fun col =>
       let session_text := session_text_of (row_get df row col) in
       if Py.truthy session_text then
         if is_for_module (Str session_text) module_name mappings then
           let is_tut := is_tutorial_or_practical (Str session_text) in
           let session_type :=
             if is_tut then "Tutorial/Practical" else "Lecture" in
           [mkDetail (time_slot_of col) session_text session_type]
         else []
       else [])
    (get_all_session_columns df).

(** The outer loop: the running [total] and [session_details]. *)
Definition count_row (df : DataFrame) (module_name : string)
    (mappings : dict) (acc : nat * list day_detail) (row : list cell)
    : nat * list day_detail :=
  let day := sessions_of_row df module_name mappings row in
  let total := fst acc + length day in
  match day with
  | [] => (total, snd acc)
  | _ => (total, (snd acc ++ [mkDay (date_of row) day])%list)
  end.

Definition count_lectures_for_module (df : DataFrame) (module_name : string)
    (mappings : dict) : nat * list day_detail :=
  fold_left (count_row df module_name mappings) (rows df) (0, []).

(** Lines 436-441 of [main]: the two counts shown beside the total. *)
Definition count_of_type (session_type : string)
    (session_details : list day_detail) : nat :=
  length (filter (fun session => String.eqb (detail_type session) session_type)
                 (flat_map day_sessions session_details)).

End UiSchedule.

(** ** Validated input of the command-line variant *)

Module CliInput.
Section WithInt.

(** [int(s)] for a line of input: [None] stands for [ValueError]. *)
Variable int_of_str : string -> option Z.

(** [get_valid_missed_sessions]: the number accepted and the input left. *)
Fixpoint get_valid_missed_sessions (total_sessions : Z) (stdin : list string)
    : result (Z * list string) :=
  match stdin with
  | [] => Raise EOFError
  | line :: stdin' =>
      match int_of_str line with
      | Some missed =>
          if ((0 <=? missed) && (missed <=? total_sessions))%Z
          then Ok (missed, stdin')
          else get_valid_missed_sessions total_sessions stdin'
      | None => get_valid_missed_sessions total_sessions stdin'
      end
  end.

(** [get_valid_module_choice]: the index chosen and the input left. *)
Fixpoint get_valid_module_choice (modules : list string) (stdin : list string)
    : result (Z * list string) :=
  match stdin with
  | [] => Raise EOFError
  | line :: stdin' =>
      match int_of_str line with
      | Some choice =>
          if ((1 <=? choice) && (choice <=? Z.of_nat (length modules)))%Z
          then Ok ((choice - 1)%Z, stdin')
          else get_valid_module_choice modules stdin'
      | None => get_valid_module_choice modules stdin'
      end
  end.

End WithInt.
End CliInput.

(** ** Specification-side notions *)

(** [k] occurs in [s] as a substring. *)
Definition Substring (k s : string) : Prop :=
  exists pre post, s = pre ++ k ++ post.

(** [(k, c)] is the first entry of [d], in insertion order, whose key
    satisfies [P]. *)
Definition FirstKey (P : string -> bool) (d : dict) (k c : string) : Prop :=
  exists before after,
    d = (before ++ (k, c) :: after)%list /\ P k = true /\
    forall k' c', In (k', c') before -> P k' = false.

(** The extra test of the Streamlit scan: equality once spaces are removed. *)
Definition space_free_equal (normalized key : string) : bool :=
  String.eqb (Py.remove_spaces (Py.lower key)) (Py.remove_spaces normalized).

(** Either test of the Streamlit scan. *)
Definition ui_match (normalized key : string) : bool :=
  substring_match normalized key || space_free_equal normalized key.

(** The characters of the text other than the space U+0020, in order. *)
Definition without_spaces (s : string) : list ascii :=
  filter (fun c => negb (Ascii.eqb c " ")) (list_ascii_of_string s).

(** No removal pattern of [normalize_session_text] matches anywhere in [s]. *)
Definition nothing_to_remove (s : string) : bool :=
  forallb (fun p => match Re.search (fst p) (snd p) s with
                    | Some _ => false
                    | None => true
                    end) removals.

(** The text starts with a character that is no whitespace, or is empty. *)
Definition starts_nonspace (s : string) : bool :=
  match s with
  | EmptyString => true
  | String c _ => negb (Py.isspace c)
  end.

(** Every whitespace character of the text is a single space that stands
    before a character which is no whitespace, or at the very end. *)
Fixpoint collapsed (s : string) : bool :=
  match s with
  | EmptyString => true
  | String c s' =>
      (if Py.isspace c then Ascii.eqb c " " && starts_nonspace s' else true)
      && collapsed s'
  end.

(** The columns after the renaming of [load_schedule]. *)
Definition renamed_columns (df : DataFrame) : list string :=
  (["Date"; "Morning"; "Afternoon"]
   ++ extra_columns (length (columns df) - 3))%list.

(** The first remaining row is a stray header. *)
Definition is_header (row : list cell) : bool :=
  match date_of row with
  | NaN => false
  | Str s => Py.in_list (Py.lower s) ["date"; "day"]
  end.

(** What is known of [m] after [k] right shifts: the quotient, and that the
    round bit is set only from half a unit on. *)
Definition shifted (m : Z) (k : Z) (st : shr_record) : Prop :=
  (0 <= shr_m st /\
   exists rem, m = shr_m st * 2 ^ k + rem /\ 0 <= rem < 2 ^ k /\
               (shr_r st = true -> 2 ^ k <= 2 * rem))%Z.

(** The mantissa of the binary64 nearest to 0.8. *)
Definition mantissa_80 : positive := 7205759403792794%positive.

(** ** Notions for the properties of the schedule *)

(** The last character of the text is no whitespace. *)
Fixpoint ends_nonspace (k : string) : bool :=
  match k with
  | EmptyString => false
  | String a EmptyString => negb (Py.isspace a)
  | String _ k' => ends_nonspace k'
  end.

(** Every 8-bit character. *)
Definition all_ascii : list ascii := map ascii_of_nat (seq 0 256).

(** The characters that [str.lower] sends to [c]. *)
Definition lower_preimages (c : ascii) : list ascii :=
  filter (fun a => Ascii.eqb (Py.lower_char a) c) all_ascii.

(** The texts that [str.lower] sends to [p]. *)
Fixpoint case_variants (p : string) : list string :=
  match p with
  | EmptyString => [EmptyString]
  | String c p' =>
      flat_map (fun a => map (String a) (case_variants p')) (lower_preimages c)
  end.

(** A text that is a placeholder up to case is no exam session and
    normalises to a placeholder. *)
Definition placeholder_variants_skipped : bool :=
  forallb
    (fun p =>
       forallb
         (fun t =>
            negb (is_exam_session (Str t))
            && Py.in_list (Py.lower (normalize_session_text (Str t)))
                          placeholders)
         (case_variants p))
    placeholders.

(** A line that the prompt loop rejects. *)
Definition blank_answer (line : string) : bool :=
  negb (Py.truthy (Py.upper (Py.strip line))).


(** The texts that pandas makes of the session columns are the cells' own
    texts; so it is when the session columns hold text. *)
Definition reads_own_texts (df : DataFrame) (all_sessions : list string)
    : Prop :=
  forall s, In s all_sessions <-> In s (cell_texts df).

(** A line that [get_valid_missed_sessions] does not accept: [int] raises
    [ValueError] on it, or reads a number out of the range. *)
Definition rejected_missed (int_of_str : string -> option Z)
    (total_sessions : Z) (line : string) : bool :=
  match int_of_str line with
  | Some missed => negb ((0 <=? missed) && (missed <=? total_sessions))%Z
  | None => true
  end.

(** A line that [get_valid_module_choice] does not accept. *)
Definition rejected_choice (int_of_str : string -> option Z)
    (modules : list string) (line : string) : bool :=
  match int_of_str line with
  | Some choice =>
      negb ((1 <=? choice) && (choice <=? Z.of_nat (length modules)))%Z
  | None => true
  end.

(** Session [s] puts module [x] into the set. *)
Definition offers (mappings : dict) (s x : string) : Prop :=
  worth_mapping (Py.strip s) = true /\
  Ui.get_module_code_for_session (Str (Py.strip s)) mappings = Some x /\
  x <> "" /\ x <> "EXAM".

Definition days_of (df : DataFrame) (module_name : string) (mappings : dict)
    (rs : list (list cell)) : list day_detail :=
  flat_map (fun row =>
              match UiSchedule.sessions_of_row df module_name mappings row with
              | [] => []
              | day => [mkDay (date_of row) day]
              end) rs.

(** The entry [(session, normalized)] is a session without a mapping. *)
Definition unmapped_entry (mappings : dict) (e : string * string) : Prop :=
  worth_mapping (fst e) = true /\
  snd e = Py.lower (normalize_session_text (Str (fst e))) /\
  is_exam_session (Str (fst e)) = false /\
  dict_mem mappings (snd e) = false /\
  Ui.scan (snd e) mappings = None.

(** The text holds no underscore. *)
Fixpoint no_underscore (s : string) : bool :=
  match s with
  | EmptyString => true
  | String c s' => negb (Ascii.eqb c "_") && no_underscore s'
  end.

(** * Properties *)

(** ** Strings *)

Lemma startswith_spec (k s : string) :
  Py.startswith k s = true <-> exists post, s = k ++ post.
Proof.
  revert s; induction k as [|a k IH]; intros s; simpl.
  - split; [intros _; now exists s | reflexivity].
  - destruct s as [|b s].
    + split; [discriminate | intros [post H]; discriminate].
    + rewrite andb_true_iff, Ascii.eqb_eq, IH.
      split.
      * intros [-> [post ->]]. now exists post.
      * intros [post H]. inversion H. split; [reflexivity | now exists post].
Qed.

Lemma contains_spec (k s : string) :
  Py.contains k s = true <-> Substring k s.
Proof.
  split.
  - induction s as [|c s IH]; simpl; rewrite orb_true_iff; intros [H|H].
    + apply startswith_spec in H as [post H]. now exists "", post.
    + discriminate.
    + apply startswith_spec in H as [post H]. now exists "", post.
    + destruct (IH H) as (pre & post & ->). now exists (String c pre), post.
  - intros (pre & post & ->). induction pre as [|c pre IH]; simpl.
    + assert (H : Py.startswith k (k ++ post) = true)
        by (apply startswith_spec; now exists post).
      destruct (k ++ post); simpl; now rewrite H.
    + rewrite IH. apply orb_true_r.
Qed.

Lemma is_exam_session_spec (s : string) :
  is_exam_session (Str s) = true <->
  exists k, In k exam_keywords /\ Substring k (Py.lower s).
Proof.
  unfold is_exam_session. rewrite existsb_exists.
  split; intros (k & Hin & H); exists k; split; auto; now apply contains_spec.
Qed.

(** ** The mapping store *)

Lemma dict_get_set_same (d : dict) (k v : string) :
  dict_get (dict_set d k v) k = Some v.
Proof.
  induction d as [|[k' v'] d IH]; simpl.
  - now rewrite String.eqb_refl.
  - destruct (String.eqb k' k) eqn:E; simpl; rewrite E; [reflexivity | exact IH].
Qed.



(** ** The fallback scans *)

Lemma cli_scan_first (normalized : string) (d : dict) (k c : string) :
  FirstKey (substring_match normalized) d k c -> Cli.scan normalized d = Some c.
Proof.
  intros (before & after & -> & Hk & Hbefore).
  induction before as [|[k' c'] before IH]; simpl.
  - unfold substring_match in Hk. now rewrite Hk.
  - pose proof (Hbefore k' c' (or_introl eq_refl)) as H.
    unfold substring_match in H. rewrite H.
    apply IH. intros k'' c'' Hin. apply (Hbefore k'' c''). now right.
Qed.

Lemma cli_scan_some (normalized : string) (d : dict) (c : string) :
  Cli.scan normalized d = Some c ->
  exists k, FirstKey (substring_match normalized) d k c.
Proof.
  induction d as [|[k' c'] d IH]; simpl; [discriminate|].
  destruct (Py.contains (Py.lower k') normalized
            || Py.contains normalized (Py.lower k')) eqn:E.
  - intros [= ->]. exists k', [], d. repeat split; auto. intros ? ? [].
  - intros H. destruct (IH H) as (k & before & after & -> & Hk & Hb).
    exists k, ((k', c') :: before), after. repeat split; auto.
    intros k'' c'' [[= <- <-]|Hin]; [exact E | now apply (Hb k'' c'')].
Qed.

Lemma ui_scan_cons (normalized key code : string) (d : dict) :
  Ui.scan normalized ((key, code) :: d) =
  if ui_match normalized key then Some code else Ui.scan normalized d.
Proof.
  unfold ui_match, substring_match, space_free_equal. simpl.
  destruct (_ || _); [reflexivity|]. simpl. now destruct (String.eqb _ _).
Qed.

Lemma ui_scan_first (normalized : string) (d : dict) (k c : string) :
  FirstKey (ui_match normalized) d k c -> Ui.scan normalized d = Some c.
Proof.
  intros (before & after & -> & Hk & Hbefore).
  induction before as [|[k' c'] before IH]; simpl app; rewrite ui_scan_cons.
  - now rewrite Hk.
  - rewrite (Hbefore k' c' (or_introl eq_refl)).
    apply IH. intros k'' c'' Hin. apply (Hbefore k'' c''). now right.
Qed.


Lemma first_key_exists (P : string -> bool) (d : dict) (k c : string) :
  In (k, c) d -> P k = true -> exists k' c', FirstKey P d k' c'.
Proof.
  induction d as [|[k0 c0] d IH]; simpl; [intros []|].
  intros Hin Hk. destruct (P k0) eqn:E.
  - exists k0, c0, [], d. repeat split; auto. intros ? ? [].
  - destruct Hin as [[= -> ->]|Hin]; [congruence|].
    destruct (IH Hin Hk) as (k' & c' & before & after & -> & Hk' & Hb).
    exists k', c', ((k0, c0) :: before), after. repeat split; auto.
    intros k'' c'' [[= <- <-]|H]; [exact E | now apply (Hb k'' c'')].
Qed.

Lemma first_key_In (P : string -> bool) (d : dict) (k c : string) :
  FirstKey P d k c -> In (k, c) d.
Proof.
  intros (before & after & -> & _). apply in_or_app. right. now left.
Qed.

(** ** Classification past the guards *)

Section PastGuards.
Variables (label : cell) (mappings : dict).
Let normalized := Py.lower (normalize_session_text label).
Hypothesis not_exam : is_exam_session label = false.
Hypothesis not_empty : normalized <> "".
Hypothesis not_placeholder : Py.in_list normalized placeholders = false.

Lemma guards_pass :
  negb (Py.truthy normalized) || Py.in_list normalized placeholders = false.
Proof.
  rewrite not_placeholder, orb_false_r.
  destruct normalized; [congruence | reflexivity].
Qed.

Lemma ui_lookup :
  Ui.get_module_code_for_session label mappings =
  if dict_mem mappings normalized then dict_get mappings normalized
  else Ui.scan normalized mappings.
Proof.
  unfold Ui.get_module_code_for_session.
  rewrite not_exam. fold normalized. now rewrite guards_pass.
Qed.

Lemma cli_lookup_exact (w : Cli.world) (code : string) :
  dict_get mappings normalized = Some code ->
  Cli.get_module_code_for_session label mappings w =
  Ok (Some code, mappings, w).
Proof.
  intros H. unfold Cli.get_module_code_for_session.
  rewrite not_exam. fold normalized. rewrite guards_pass.
  unfold dict_mem. now rewrite H.
Qed.

Lemma cli_lookup_scan (w : Cli.world) (code : string) :
  dict_mem mappings normalized = false ->
  Cli.scan normalized mappings = Some code ->
  Cli.get_module_code_for_session label mappings w =
  Ok (Some code, mappings, w).
Proof.
  intros Hm H. unfold Cli.get_module_code_for_session.
  rewrite not_exam. fold normalized. now rewrite guards_pass, Hm, H.
Qed.
End PastGuards.

(** ** Exam detection comes first *)

(** C1.  A label whose lower-cased raw text contains an exam keyword is
    classified EXAM, whatever the store holds; the test is on the raw label
    and is the first the function makes, so nothing else is consulted: the
    Streamlit variant returns ["EXAM"], and the command-line variant returns
    ["EXAM"] leaving the store and the world as they were. *)
Theorem C1_exam_precedence (s k : string) (mappings : dict) :
  In k exam_keywords -> Substring k (Py.lower s) ->
  Ui.get_module_code_for_session (Str s) mappings = Some "EXAM" /\
  forall w, Cli.get_module_code_for_session (Str s) mappings w =
            Ok (Some "EXAM", mappings, w).
Proof.
  intros Hin Hsub.
  assert (E : is_exam_session (Str s) = true)
    by (apply is_exam_session_spec; eauto).
  unfold Ui.get_module_code_for_session, Cli.get_module_code_for_session.
  rewrite E. auto.
Qed.

Lemma C1_exam_precedence_witness :
  In "exam" exam_keywords /\
  Substring "exam" (Py.lower "Final EXAM - Dr Smith") /\
  Ui.get_module_code_for_session (Str "Final EXAM - Dr Smith")
    [("final exam", "DSA")] = Some "EXAM" /\
  forall w, Cli.get_module_code_for_session (Str "Final EXAM - Dr Smith")
              [("final exam", "DSA")] w =
            Ok (Some "EXAM", [("final exam", "DSA")], w).
Proof.
  assert (Hin : In "exam" exam_keywords) by (simpl; auto).
  assert (Hsub : Substring "exam" (Py.lower "Final EXAM - Dr Smith"))
    by (exists "final ", " - dr smith"; reflexivity).
  split; [exact Hin | split; [exact Hsub |]].
  exact (C1_exam_precedence "Final EXAM - Dr Smith" "exam"
           [("final exam", "DSA")] Hin Hsub).
Defined.

(** ** The fallback scan *)

(** C2, as stated, fails in the Streamlit variant: with the keys ["ab c"] and
    ["a bc d"] stored in that order, the label ["a bc"] is not an exact key,
    the first key in a substring relation with it is ["a bc d"] (code ["Y"]),
    and the function returns ["X"], the code of the earlier key that is equal
    to the label once spaces are removed. *)
Lemma C2_counterexample :
  let mappings := [("ab c", "X"); ("a bc d", "Y")] in
  let label := Str "a bc" in
  let normalized := Py.lower (normalize_session_text label) in
  is_exam_session label = false /\
  normalized = "a bc" /\
  Py.in_list normalized placeholders = false /\
  dict_mem mappings normalized = false /\
  FirstKey (substring_match normalized) mappings "a bc d" "Y" /\
  Ui.get_module_code_for_session label mappings = Some "X" /\
  Ui.get_module_code_for_session label mappings <> Some "Y".
Proof.
  cbv zeta. repeat split; try reflexivity.
  - exists [("ab c", "X")], []. repeat split.
    intros k' c' [[= <- <-]|[]]. reflexivity.
  - discriminate.
Qed.

(** C2, amended.  For a label that is not exam-related and whose normalised
    lower-cased form is non-empty, no placeholder and no exact key: the
    command-line variant returns the code of the first key, in insertion
    order, that is in a substring relation with the label; the Streamlit
    variant returns the code of the first key that is in a substring
    relation with the label or equal to it once spaces are removed, which is
    the same code whenever the first key passing either test is in a
    substring relation with the label.  With the single mapping ["data structures"] to ["DSA"], a
    label normalising to ["data structures and algorithms"] gives ["DSA"] in
    both variants. *)
Theorem C2_fallback_first_match (label : cell) (mappings : dict) :
  is_exam_session label = false ->
  Py.lower (normalize_session_text label) <> "" ->
  Py.in_list (Py.lower (normalize_session_text label)) placeholders = false ->
  dict_mem mappings (Py.lower (normalize_session_text label)) = false ->
  let normalized := Py.lower (normalize_session_text label) in
  (forall k c, FirstKey (substring_match normalized) mappings k c ->
     forall w, Cli.get_module_code_for_session label mappings w =
               Ok (Some c, mappings, w)) /\
  (forall k c, FirstKey (ui_match normalized) mappings k c ->
     Ui.get_module_code_for_session label mappings = Some c) /\
  (forall k c, FirstKey (substring_match normalized) mappings k c ->
     (forall k' c', FirstKey (ui_match normalized) mappings k' c' ->
                    substring_match normalized k' = true) ->
     Ui.get_module_code_for_session label mappings = Some c) /\
  (normalized = "data structures and algorithms" ->
   Ui.get_module_code_for_session label [("data structures", "DSA")]
     = Some "DSA" /\
   forall w, Cli.get_module_code_for_session label
               [("data structures", "DSA")] w
             = Ok (Some "DSA", [("data structures", "DSA")], w)).
Proof.
  intros Hexam Hne Hph Hmem normalized.
  assert (Hui : forall k c, FirstKey (ui_match normalized) mappings k c ->
                Ui.get_module_code_for_session label mappings = Some c).
  { intros k c H. rewrite ui_lookup by assumption. fold normalized.
    fold normalized in Hmem. rewrite Hmem. now apply ui_scan_first with k. }
  split; [|split; [exact Hui | split]].
  - intros k c H w. apply cli_lookup_scan; try assumption.
    now apply cli_scan_first with k.
  - intros k c H Hno.
    destruct (first_key_exists (ui_match normalized) mappings k c)
      as (k0 & c0 & H0).
    { now apply first_key_In with (substring_match normalized). }
    { destruct H as (_ & _ & _ & Hk & _). unfold ui_match. now rewrite Hk. }
    pose proof (Hno k0 c0 H0) as Hs0.
    assert (H1 : FirstKey (substring_match normalized) mappings k0 c0).
    { destruct H0 as (b & a & Hd & _ & Hb). exists b, a. repeat split; auto.
      intros k' c' Hin. specialize (Hb k' c' Hin). unfold ui_match in Hb.
      now apply orb_false_iff in Hb. }
    apply cli_scan_first in H, H1. rewrite H in H1. injection H1 as ->.
    now apply (Hui k0).
  - intros Hn. split.
    + rewrite ui_lookup by assumption. fold normalized. now rewrite Hn.
    + intros w. apply cli_lookup_scan; try assumption;
        fold normalized; now rewrite Hn.
Qed.

Lemma C2_fallback_first_match_witness :
  let label := Str "Data Structures and Algorithms - Dr Perera" in
  let mappings := [("data structures", "DSA")] in
  is_exam_session label = false /\
  Py.lower (normalize_session_text label) = "data structures and algorithms" /\
  Py.in_list (Py.lower (normalize_session_text label)) placeholders = false /\
  dict_mem mappings (Py.lower (normalize_session_text label)) = false /\
  Ui.get_module_code_for_session label mappings = Some "DSA" /\
  forall w, Cli.get_module_code_for_session label mappings w
            = Ok (Some "DSA", mappings, w).
Proof.
  cbv zeta.
  assert (Hn : Py.lower (normalize_session_text
                 (Str "Data Structures and Algorithms - Dr Perera"))
               = "data structures and algorithms") by reflexivity.
  split; [reflexivity | split; [exact Hn | split; [reflexivity |
    split; [reflexivity |]]]].
  refine (proj2 (proj2 (proj2
    (C2_fallback_first_match
       (Str "Data Structures and Algorithms - Dr Perera")
       [("data structures", "DSA")] eq_refl _ eq_refl eq_refl))) Hn).
  rewrite Hn. discriminate.
Defined.

(** ** Recording a mapping *)

(** C3, as stated, fails: after ["dsa"] has been recorded for ["DSA"], the
    label ["DSA - Dr Vivaldi"] normalises to that key and is classified
    EXAM, because the exam test on the raw label comes first and the
    instructor's name holds the keyword ["viva"]. *)
Lemma C3_counterexample :
  let label := Str "DSA - Dr Vivaldi" in
  let recorded := Cli.record_mapping "dsa" "DSA" [] (Cli.mkWorld Absent []) in
  Py.lower (normalize_session_text label) = "dsa" /\
  Cli.get_module_code_for_session label (fst recorded) (snd recorded)
    = Ok (Some "EXAM", fst recorded, snd recorded) /\
  Cli.get_module_code_for_session label (fst recorded) (snd recorded)
    <> Ok (Some "DSA", fst recorded, snd recorded) /\
  Ui.get_module_code_for_session label (fst recorded) = Some "EXAM".
Proof. cbv zeta. repeat split. discriminate. Qed.

(** C3, amended.  After [record(key, "DSA")], a label that is not
    exam-related and whose normalised lower-cased form equals [key] is
    classified ["DSA"], provided [key] is neither empty nor a placeholder;
    the store and the world are left as the recording made them. *)
Theorem C3_record_then_classify (mappings : dict) (w : Cli.world)
    (key : string) (label : cell) :
  is_exam_session label = false ->
  Py.lower (normalize_session_text label) = key ->
  key <> "" ->
  Py.in_list key placeholders = false ->
  Cli.get_module_code_for_session label
    (fst (Cli.record_mapping key "DSA" mappings w))
    (snd (Cli.record_mapping key "DSA" mappings w))
  = Ok (Some "DSA", fst (Cli.record_mapping key "DSA" mappings w),
        snd (Cli.record_mapping key "DSA" mappings w)) /\
  Ui.get_module_code_for_session label
    (fst (Cli.record_mapping key "DSA" mappings w)) = Some "DSA".
Proof.
  intros Hexam Hkey Hne Hph. subst key. simpl fst. simpl snd. split.
  - apply cli_lookup_exact; auto. apply dict_get_set_same.
  - rewrite ui_lookup by assumption. unfold dict_mem.
    now rewrite dict_get_set_same.
Qed.

Lemma C3_record_then_classify_witness :
  is_exam_session (Str "DSA Tutorial") = false /\
  Py.lower (normalize_session_text (Str "DSA Tutorial")) = "dsa" /\
  "dsa" <> "" /\
  Py.in_list "dsa" placeholders = false /\
  Cli.get_module_code_for_session (Str "DSA Tutorial")
    [("dsa", "DSA")] (Cli.mkWorld (Json [("dsa", "DSA")]) [])
  = Ok (Some "DSA", [("dsa", "DSA")], Cli.mkWorld (Json [("dsa", "DSA")]) []) /\
  Ui.get_module_code_for_session (Str "DSA Tutorial") [("dsa", "DSA")]
  = Some "DSA".
Proof.
  assert (Hne : "dsa" <> "") by discriminate.
  split; [reflexivity | split; [reflexivity | split; [exact Hne |
    split; [reflexivity |]]]].
  exact (C3_record_then_classify [("dsa", "OLD")] (Cli.mkWorld Absent [])
           "dsa" (Str "DSA Tutorial") eq_refl eq_refl Hne eq_refl).
Defined.

(** ** Two overlapping keys *)

(** C4, as stated, fails: with ["os"] inserted first and
    ["operating systems"] second, a label normalising to
    ["operating systems"] gets the code of the second key, which it matches
    exactly. *)
Lemma C4_counterexample :
  let mappings := [("os", "OS"); ("operating systems", "OPSYS")] in
  let label := Str "Operating Systems" in
  is_exam_session label = false /\
  Py.lower (normalize_session_text label) = "operating systems" /\
  Ui.get_module_code_for_session label mappings = Some "OPSYS" /\
  (forall w, Cli.get_module_code_for_session label mappings w
             = Ok (Some "OPSYS", mappings, w)) /\
  Ui.get_module_code_for_session label mappings <> Some "OS".
Proof. cbv zeta. repeat split; discriminate. Qed.

(** C4, amended.  With a store holding exactly the keys ["os"] and
    ["operating systems"], in either insertion order, a label that is not
    exam-related and normalises to ["operating systems"] gets the code
    stored under ["operating systems"]: the exact key is looked up before
    any scan, so the insertion order plays no part. *)
Theorem C4_exact_key_wins (label : cell) (c_os c_full : string)
    (mappings : dict) :
  is_exam_session label = false ->
  Py.lower (normalize_session_text label) = "operating systems" ->
  mappings = [("os", c_os); ("operating systems", c_full)] \/
  mappings = [("operating systems", c_full); ("os", c_os)] ->
  Ui.get_module_code_for_session label mappings = Some c_full /\
  forall w, Cli.get_module_code_for_session label mappings w
            = Ok (Some c_full, mappings, w).
Proof.
  intros Hexam Hn Hm.
  assert (Hne : Py.lower (normalize_session_text label) <> "")
    by (rewrite Hn; discriminate).
  assert (Hph : Py.in_list (Py.lower (normalize_session_text label))
                  placeholders = false) by (now rewrite Hn).
  assert (Hget : dict_get mappings (Py.lower (normalize_session_text label))
                 = Some c_full)
    by (rewrite Hn; destruct Hm as [-> | ->]; reflexivity).
  split.
  - rewrite ui_lookup by assumption. unfold dict_mem. now rewrite Hget.
  - intros w. now apply cli_lookup_exact.
Qed.

Lemma C4_exact_key_wins_witness :
  is_exam_session (Str "Operating Systems - Lab") = false /\
  Py.lower (normalize_session_text (Str "Operating Systems - Lab"))
    = "operating systems" /\
  Ui.get_module_code_for_session (Str "Operating Systems - Lab")
    [("os", "OS"); ("operating systems", "OPSYS")] = Some "OPSYS" /\
  forall w, Cli.get_module_code_for_session (Str "Operating Systems - Lab")
              [("os", "OS"); ("operating systems", "OPSYS")] w
            = Ok (Some "OPSYS",
                  [("os", "OS"); ("operating systems", "OPSYS")], w).
Proof.
  split; [reflexivity | split; [reflexivity |]].
  exact (C4_exact_key_wins (Str "Operating Systems - Lab") "OS" "OPSYS"
           [("os", "OS"); ("operating systems", "OPSYS")]
           eq_refl eq_refl (or_introl eq_refl)).
Defined.

(** ** The reserved code *)




(** ** Normalisation *)

Lemma lstrip_fixed (s : string) :
  starts_nonspace s = true -> Py.lstrip s = s.
Proof.
  destruct s as [|c s]; simpl; [reflexivity|].
  intros H. apply negb_true_iff in H. now rewrite H.
Qed.

Lemma lstrip_starts (s : string) : starts_nonspace (Py.lstrip s) = true.
Proof.
  induction s as [|c s IH]; simpl; [reflexivity|].
  destruct (Py.isspace c) eqn:E; [exact IH | simpl; now rewrite E].
Qed.

Lemma lstrip_split (s : string) : exists pre, s = pre ++ Py.lstrip s.
Proof.
  induction s as [|c s [pre IH]]; simpl.
  - now exists "".
  - destruct (Py.isspace c).
    + exists (String c pre). simpl. now rewrite <- IH.
    + now exists "".
Qed.

Lemma length_append (a b : string) :
  String.length (a ++ b) = String.length a + String.length b.
Proof. induction a as [|c a IH]; simpl; [reflexivity | now rewrite IH]. Qed.

Lemma rstrip_head (s : string) (d : ascii) (r : string) :
  Py.rstrip s = String d r -> exists s', s = String d s'.
Proof.
  destruct s as [|c s]; simpl; [discriminate|].
  destruct (Py.rstrip s).
  - destruct (Py.isspace c); [discriminate|]. intros [= -> _]. now exists s.
  - intros [= -> _]. now exists s.
Qed.

Lemma rstrip_starts (s : string) :
  starts_nonspace s = true -> starts_nonspace (Py.rstrip s) = true.
Proof.
  destruct s as [|c s]; simpl; [reflexivity|].
  intros H. destruct (Py.rstrip s); [|exact H].
  apply negb_true_iff in H. rewrite H. simpl. now rewrite H.
Qed.

Lemma rstrip_idempotent (s : string) : Py.rstrip (Py.rstrip s) = Py.rstrip s.
Proof.
  induction s as [|c s IH]; simpl; [reflexivity|].
  destruct (Py.rstrip s) as [|d r] eqn:E.
  - destruct (Py.isspace c) eqn:Ec; simpl; [reflexivity | now rewrite Ec].
  - change (Py.rstrip (String c (String d r))) with
      (match Py.rstrip (String d r) with
       | EmptyString =>
           if Py.isspace c then EmptyString else String c EmptyString
       | String a b => String c (String a b)
       end).
    now rewrite IH.
Qed.

Lemma strip_idempotent (s : string) : Py.strip (Py.strip s) = Py.strip s.
Proof.
  unfold Py.strip.
  rewrite (lstrip_fixed (Py.rstrip (Py.lstrip s))).
  - apply rstrip_idempotent.
  - apply rstrip_starts, lstrip_starts.
Qed.

Lemma collapsed_lstrip (s : string) :
  collapsed s = true -> collapsed (Py.lstrip s) = true.
Proof.
  induction s as [|c s IH]; simpl; [reflexivity|].
  intros H. apply andb_true_iff in H as [H1 H2].
  destruct (Py.isspace c) eqn:E; [now apply IH|].
  simpl. now rewrite E, H2.
Qed.

Lemma collapsed_rstrip (s : string) :
  collapsed s = true -> collapsed (Py.rstrip s) = true.
Proof.
  induction s as [|c s IH]; simpl; [reflexivity|].
  intros H. apply andb_true_iff in H as [H1 H2]. specialize (IH H2).
  destruct (Py.rstrip s) as [|d r] eqn:E.
  - destruct (Py.isspace c) eqn:Ec; simpl; [reflexivity | now rewrite Ec].
  - change (collapsed (String c (String d r))) with
      ((if Py.isspace c
        then Ascii.eqb c " " && starts_nonspace (String d r) else true)
       && collapsed (String d r)).
    rewrite IH, andb_true_r.
    destruct (Py.isspace c); [|reflexivity].
    apply andb_true_iff in H1 as [-> H1]. simpl.
    destruct (rstrip_head s d r E) as [s' ->]. exact H1.
Qed.

Lemma collapsed_strip (s : string) :
  collapsed s = true -> collapsed (Py.strip s) = true.
Proof. intros H. now apply collapsed_rstrip, collapsed_lstrip. Qed.

(** *** The engine on the patterns of the program *)

Lemma star_spaces (s : string) :
  Re.star Py.isspace s Some = Some (Py.lstrip s).
Proof.
  induction s as [|c s IH]; simpl; [reflexivity|].
  destruct (Py.isspace c); [now rewrite IH | reflexivity].
Qed.

Lemma sub_from_skip (icase : bool) (r : Re.regex) (repl pre rest : string) :
  Re.sub_from icase r repl (pre ++ rest) (String.length pre) =
  Re.sub_from icase r repl rest 0.
Proof.
  induction pre as [|c pre IH]; simpl; [|exact IH].
  destruct rest; reflexivity.
Qed.

Lemma sub_no_match (icase : bool) (r : Re.regex) (repl s : string) :
  Re.search icase r s = None -> Re.sub icase r repl s = s.
Proof.
  unfold Re.sub. induction s as [|c s IH]; simpl.
  - now destruct (Re.match_at icase r "").
  - destruct (Re.match_at icase r (String c s)); [discriminate|].
    intros H. now rewrite IH.
Qed.

(** [re.sub(r'\s+', ' ', s)], one character at a time. *)
Lemma sub_spaces_cons (c : ascii) (s : string) :
  Re.sub false re_spaces " " (String c s) =
  if Py.isspace c
  then String " " (Re.sub false re_spaces " " (Py.lstrip s))
  else String c (Re.sub false re_spaces " " s).
Proof.
  unfold Re.sub.
  change (Re.sub_from false re_spaces " " (String c s) 0) with
    (match Re.match_at false re_spaces (String c s) with
     | Some rest =>
         match String.length (String c s) - String.length rest with
         | O => " " ++ String c (Re.sub_from false re_spaces " " s 0)
         | S n => " " ++ Re.sub_from false re_spaces " " s n
         end
     | None => String c (Re.sub_from false re_spaces " " s 0)
     end).
  change (Re.match_at false re_spaces (String c s)) with
    (if Py.isspace c then Re.star Py.isspace s Some else None).
  destruct (Py.isspace c); [|reflexivity].
  rewrite star_spaces.
  destruct (lstrip_split s) as [pre E].
  replace (String.length (String c s) - String.length (Py.lstrip s))
    with (S (String.length pre)).
  - rewrite E at 1. now rewrite sub_from_skip.
  - assert (Hl : String.length s
                 = String.length pre + String.length (Py.lstrip s))
      by (rewrite E at 1; apply length_append).
    simpl String.length. lia.
Qed.

Lemma sub_spaces_collapsed_aux (n : nat) (s : string) :
  String.length s <= n ->
  collapsed (Re.sub false re_spaces " " s) = true /\
  (starts_nonspace s = true ->
   starts_nonspace (Re.sub false re_spaces " " s) = true).
Proof.
  revert s. induction n as [|n IH]; intros s Hlen.
  - destruct s; [split; reflexivity | simpl in Hlen; lia].
  - destruct s as [|c s]; [split; reflexivity|].
    rewrite sub_spaces_cons. simpl in Hlen.
    destruct (Py.isspace c) eqn:E.
    + assert (Hl : String.length (Py.lstrip s) <= n).
      { destruct (lstrip_split s) as [pre Hs].
        rewrite Hs, length_append in Hlen. lia. }
      destruct (IH (Py.lstrip s) Hl) as [H1 H2].
      split.
      * simpl. rewrite H1, (H2 (lstrip_starts s)). reflexivity.
      * simpl. now rewrite E.
    + destruct (IH s ltac:(lia)) as [H1 _]. split.
      * simpl. now rewrite E, H1.
      * intros _. simpl. now rewrite E.
Qed.

Lemma sub_spaces_collapsed (s : string) :
  collapsed (Re.sub false re_spaces " " s) = true.
Proof. exact (proj1 (sub_spaces_collapsed_aux (String.length s) s (le_n _))). Qed.

Lemma sub_spaces_fixed (s : string) :
  collapsed s = true -> Re.sub false re_spaces " " s = s.
Proof.
  induction s as [|c s IH]; [reflexivity|].
  simpl. intros H. apply andb_true_iff in H as [H1 H2].
  rewrite sub_spaces_cons. destruct (Py.isspace c).
  - apply andb_true_iff in H1 as [Hc Hs]. apply Ascii.eqb_eq in Hc as ->.
    now rewrite (lstrip_fixed s Hs), IH.
  - now rewrite IH.
Qed.

Lemma nothing_to_remove_spec (s : string) :
  nothing_to_remove s = true ->
  forall icase r, In (icase, r) removals -> Re.search icase r s = None.
Proof.
  unfold nothing_to_remove. rewrite forallb_forall.
  intros H icase r Hin. specialize (H _ Hin). simpl in H.
  now destruct (Re.search icase r s).
Qed.

(** The result of a normalisation is stripped and has single spaces only. *)
Lemma normalize_shape (x : cell) :
  Py.strip (normalize_session_text x) = normalize_session_text x /\
  collapsed (normalize_session_text x) = true.
Proof.
  destruct x as [|s]; [split; reflexivity|].
  unfold normalize_session_text. split.
  - apply strip_idempotent.
  - apply collapsed_strip, sub_spaces_collapsed.
Qed.

(** C5, as stated, fails: two stacked qualifiers are removed one pass at a
    time. *)
Lemma C5_counterexample :
  normalize_session_text (Str "DSA tutorial lab") = "DSA tutorial" /\
  normalize_session_text (Str (normalize_session_text (Str "DSA tutorial lab")))
    = "DSA" /\
  normalize_session_text (Str (normalize_session_text (Str "DSA tutorial lab")))
    <> normalize_session_text (Str "DSA tutorial lab").
Proof. repeat split. discriminate. Qed.

(** C5, amended.  A second normalisation changes nothing whenever the first
    result holds no further match of the five removal patterns (instructor
    marker, qualifier, trailing dash); otherwise it may remove more.  This
    covers the missing label, whose result is the empty string. *)
Theorem C5_normalize_idempotent_when_clean (x : cell) :
  nothing_to_remove (normalize_session_text x) = true ->
  normalize_session_text (Str (normalize_session_text x))
  = normalize_session_text x.
Proof.
  intros H. pose proof (nothing_to_remove_spec _ H) as Hno.
  destruct (normalize_shape x) as [Hstrip Hcol].
  set (y := normalize_session_text x) in *.
  unfold normalize_session_text at 1. fold y.
  rewrite Hstrip.
  rewrite (sub_no_match true re_instructor_dash "" y)
    by (apply Hno; simpl; auto).
  rewrite (sub_no_match true re_instructor_space "" y)
    by (apply Hno; simpl; auto).
  rewrite (sub_no_match true re_qualifier_dash "" y)
    by (apply Hno; simpl; auto).
  rewrite (sub_no_match true re_qualifier_space "" y)
    by (apply Hno; simpl; auto).
  rewrite (sub_no_match false re_trailing_dash "" y)
    by (apply Hno; simpl; auto 10).
  now rewrite (sub_spaces_fixed y Hcol).
Qed.

Lemma C5_normalize_idempotent_when_clean_witness :
  nothing_to_remove (normalize_session_text (Str "  DSA   Lecture - Dr Smith"))
    = true /\
  normalize_session_text
    (Str (normalize_session_text (Str "  DSA   Lecture - Dr Smith")))
  = normalize_session_text (Str "  DSA   Lecture - Dr Smith").
Proof.
  split; [reflexivity |].
  exact (C5_normalize_idempotent_when_clean
           (Str "  DSA   Lecture - Dr Smith") eq_refl).
Defined.

(** ** Loading the store *)

(** The Streamlit variant never fails: it returns a store for every state of
    the file, and the empty store when the file is absent, unreadable or
    corrupt. *)
Lemma ui_load_total (f : file) (st : Ui.session_state) :
  fst (Ui.load_module_mappings f st) =
  match f with Json d => d | _ => [] end.
Proof. now destruct f. Qed.

(** The command-line variant returns the empty store for an absent file and
    the parsed store for a well-formed one. *)
Lemma cli_load_absent_or_parsed (input : list string) (d : dict) :
  Cli.load_module_mappings (Cli.mkWorld Absent input) = Ok [] /\
  Cli.load_module_mappings (Cli.mkWorld (Json d) input) = Ok d.
Proof. split; reflexivity. Qed.

(** C7.  In the command-line variant a mapping file that exists with corrupt
    contents makes [load_module_mappings] raise [JSONDecodeError] to its
    caller instead of returning the empty store: only [FileNotFoundError] is
    caught there, while the Streamlit variant catches every exception. *)
Theorem C7_cli_load_raises_on_corrupt (input : list string) :
  Cli.load_module_mappings (Cli.mkWorld Corrupt input) = Raise JSONDecodeError.
Proof. reflexivity. Qed.

(** ** Loading the schedule *)

Lemma header_test (row : list cell) :
  isna (date_of row) = false ->
  cell_truthy (date_of row)
  && Py.in_list (Py.lower (cell_str (date_of row))) ["date"; "day"]
  = is_header row.
Proof.
  unfold is_header. destruct (date_of row) as [|s]; [discriminate|].
  intros _. simpl cell_truthy. simpl cell_str.
  destruct s; reflexivity.
Qed.

Lemma dropna_date_head (rs : list (list cell)) (first : list cell)
    (rest : list (list cell)) :
  dropna_date rs = first :: rest -> isna (date_of first) = false.
Proof.
  intros H. assert (Hin : In first (dropna_date rs)) by (rewrite H; now left).
  apply filter_In in Hin as [_ Hf]. now apply negb_true_iff in Hf.
Qed.

(** With fewer than three columns the load fails on the [ValueError] it
    raises itself. *)
Lemma load_schedule_too_few_columns (df : DataFrame) :
  length (columns df) < 3 ->
  load_schedule_try df = Raise ValueError /\ load_schedule (Ok df) = None.
Proof.
  intros H. apply Nat.ltb_lt in H.
  unfold load_schedule, bind, load_schedule_try. now rewrite H.
Qed.

(** With three columns or more and some row that has a date, the load
    renames the columns, keeps the dated rows in order and drops the first
    of them exactly when it is a stray header. *)
Lemma load_schedule_dated (df : DataFrame) (first : list cell)
    (rest : list (list cell)) :
  3 <= length (columns df) ->
  dropna_date (rows df) = first :: rest ->
  load_schedule (Ok df) =
  Some (mkFrame (renamed_columns df)
          (if is_header first then rest else first :: rest)).
Proof.
  intros Hc Hr. assert (E : Nat.ltb (length (columns df)) 3 = false)
    by (apply Nat.ltb_ge; exact Hc).
  unfold load_schedule, bind, load_schedule_try. rewrite E, Hr.
  rewrite header_test by (now apply dropna_date_head with (rows df) rest).
  unfold renamed_columns. now destruct (is_header first).
Qed.

(** C9.  A sheet with three columns whose rows all lack a date is not
    loaded: [df.iloc[0]] raises [IndexError] on the empty frame that
    [dropna] leaves, and [load_schedule] returns [None], although the sheet
    has three columns and no row is left to be taken for a header. *)
Theorem C9_load_fails_without_dated_rows :
  let df := mkFrame ["Day"; "AM"; "PM"] [[NaN; Str "DSA"; Str "OOP"]] in
  length (columns df) = 3 /\
  dropna_date (rows df) = [] /\
  load_schedule_try df = Raise IndexError /\
  load_schedule (Ok df) = None.
Proof. cbv zeta. repeat split. Qed.

(** ** The extra test of the Streamlit scan *)

(** An entry matched by equality without spaces only: neither string is a
    substring of the other, the command-line scan finds nothing and the
    Streamlit scan returns the code. *)
Lemma ui_space_free_example :
  substring_match "data structures" "DataStructures" = false /\
  space_free_equal "data structures" "DataStructures" = true /\
  Cli.scan "data structures" [("DataStructures", "DSA")] = None /\
  Ui.get_module_code_for_session (Str "Data Structures")
    [("DataStructures", "DSA")] = Some "DSA".
Proof. repeat split. Qed.

Lemma remove_spaces_spec (s : string) :
  list_ascii_of_string (Py.remove_spaces s) = without_spaces s.
Proof.
  unfold without_spaces. induction s as [|c s IH]; [reflexivity|].
  simpl. destruct (Ascii.eqb c " "); simpl; now rewrite IH.
Qed.

Lemma space_free_equal_spec (normalized key : string) :
  space_free_equal normalized key = true <->
  without_spaces (Py.lower key) = without_spaces normalized.
Proof.
  unfold space_free_equal. rewrite String.eqb_eq, <- !remove_spaces_spec.
  split; [now intros -> |].
  intros H. apply (f_equal string_of_list_ascii) in H.
  now rewrite !string_of_list_ascii_of_string in H.
Qed.

Lemma cli_scan_none (normalized : string) (d : dict) :
  Cli.scan normalized d = None ->
  forall k, substring_match normalized k = true -> ~ In k (map fst d).
Proof.
  induction d as [|[k' c'] d IH]; simpl; [intros _ k _ []|].
  unfold substring_match at 1.
  destruct (Py.contains (Py.lower k') normalized
            || Py.contains normalized (Py.lower k')) eqn:E; [discriminate|].
  intros H k Hk [<-|Hin].
  - unfold substring_match in Hk. congruence.
  - now apply (IH H k).
Qed.

(** C10, as stated, fails: with the keys ["a"] and ["ab c"] stored in that
    order, the label ["a bc"] is no exact key, the key ["ab c"] is equal to
    it once spaces are removed and neither is a substring of the other; the
    function returns ["X"], the code of the earlier key ["a"], and not the
    code ["Y"] of that key. *)
Lemma C10_counterexample :
  let mappings := [("a", "X"); ("ab c", "Y")] in
  let label := Str "a bc" in
  let normalized := Py.lower (normalize_session_text label) in
  is_exam_session label = false /\
  normalized = "a bc" /\
  Py.in_list normalized placeholders = false /\
  dict_mem mappings normalized = false /\
  In ("ab c", "Y") mappings /\
  without_spaces (Py.lower "ab c") = without_spaces normalized /\
  Py.contains (Py.lower "ab c") normalized = false /\
  Py.contains normalized (Py.lower "ab c") = false /\
  Ui.get_module_code_for_session label mappings = Some "X" /\
  Ui.get_module_code_for_session label mappings <> Some "Y".
Proof.
  cbv zeta. repeat split; try reflexivity.
  - right. now left.
  - discriminate.
Qed.

(** C10, amended.  In the Streamlit variant, for a label that is not
    exam-related, whose normalised lower-cased form is non-empty, no
    placeholder and no exact key: whenever some stored key equals the label
    once both are lower-cased and stripped of spaces, the function returns
    the code of the first key, in insertion order, that passes the substring
    test or this test of equality without spaces.  That is the code of the
    key itself when no earlier key passes either test, and the code of the
    first key equal to the label without spaces when no stored key is in a
    substring relation with the label, which is when the scan of the
    command-line variant finds nothing.  With the single mapping of
    ["DataStructures"] to ["DSA"], the label ["Data Structures"] gives
    ["DSA"] although neither text is a substring of the other. *)
Theorem C10_ui_space_free_rule (label : cell) (mappings : dict)
    (key code : string) :
  is_exam_session label = false ->
  Py.lower (normalize_session_text label) <> "" ->
  Py.in_list (Py.lower (normalize_session_text label)) placeholders = false ->
  dict_mem mappings (Py.lower (normalize_session_text label)) = false ->
  In (key, code) mappings ->
  without_spaces (Py.lower key) =
  without_spaces (Py.lower (normalize_session_text label)) ->
  let normalized := Py.lower (normalize_session_text label) in
  (exists key' code',
     FirstKey (ui_match normalized) mappings key' code' /\
     Ui.get_module_code_for_session label mappings = Some code') /\
  (FirstKey (ui_match normalized) mappings key code ->
   Ui.get_module_code_for_session label mappings = Some code) /\
  (Cli.scan normalized mappings = None ->
   exists key' code',
     FirstKey (space_free_equal normalized) mappings key' code' /\
     Ui.get_module_code_for_session label mappings = Some code') /\
  (normalized = "data structures" ->
   substring_match normalized "DataStructures" = false /\
   Ui.get_module_code_for_session label [("DataStructures", "DSA")]
   = Some "DSA").
Proof.
  intros Hexam Hne Hph Hmem Hin Heq normalized.
  assert (Hui : forall k c, FirstKey (ui_match normalized) mappings k c ->
                Ui.get_module_code_for_session label mappings = Some c).
  { intros k c H. rewrite ui_lookup by assumption. fold normalized.
    fold normalized in Hmem. rewrite Hmem. now apply ui_scan_first with k. }
  assert (Hkey : space_free_equal normalized key = true)
    by now apply space_free_equal_spec.
  destruct (first_key_exists (ui_match normalized) mappings key code Hin)
    as (k' & c' & H).
  { unfold ui_match. rewrite Hkey. apply orb_true_r. }
  split; [|split; [apply Hui | split]].
  - exists k', c'. split; [exact H | now apply Hui with k'].
  - intros Hscan. exists k', c'. split; [|now apply Hui with k'].
    pose proof (cli_scan_none normalized mappings Hscan) as Hnone.
    assert (Hno : forall k c, In (k, c) mappings ->
                  ui_match normalized k = space_free_equal normalized k).
    { intros k c Hk. unfold ui_match.
      destruct (substring_match normalized k) eqn:E; [|reflexivity].
      exfalso. apply (Hnone k E). change k with (fst (k, c)).
      now apply in_map. }
    destruct H as (before & after & Hd & Hk' & Hb).
    exists before, after. split; [exact Hd | split].
    + rewrite <- (Hno k' c'); [exact Hk'|].
      rewrite Hd. apply in_or_app. right. now left.
    + intros k0 c0 H0. rewrite <- (Hno k0 c0); [now apply (Hb k0 c0)|].
      rewrite Hd. apply in_or_app. now left.
  - intros Hn. split; [now rewrite Hn|].
    rewrite ui_lookup by assumption. fold normalized. now rewrite Hn.
Qed.

Lemma C10_ui_space_free_rule_witness :
  is_exam_session (Str "Data Structures") = false /\
  Py.lower (normalize_session_text (Str "Data Structures"))
    = "data structures" /\
  Py.in_list "data structures" placeholders = false /\
  dict_mem [("DataStructures", "DSA")] "data structures" = false /\
  In ("DataStructures", "DSA") [("DataStructures", "DSA")] /\
  without_spaces (Py.lower "DataStructures") =
  without_spaces "data structures" /\
  Cli.scan "data structures" [("DataStructures", "DSA")] = None /\
  exists key' code',
    FirstKey (space_free_equal "data structures")
      [("DataStructures", "DSA")] key' code' /\
    Ui.get_module_code_for_session (Str "Data Structures")
      [("DataStructures", "DSA")] = Some code'.
Proof.
  assert (Hne : Py.lower (normalize_session_text (Str "Data Structures"))
                <> "") by discriminate.
  split; [reflexivity | split; [reflexivity | split; [reflexivity |
    split; [reflexivity | split; [now left | split; [reflexivity |
    split; [reflexivity|]]]]]]].
  exact (proj1 (proj2 (proj2
           (C10_ui_space_free_rule (Str "Data Structures")
              [("DataStructures", "DSA")] "DataStructures" "DSA"
              eq_refl Hne eq_refl eq_refl (or_introl eq_refl) eq_refl)))
           eq_refl).
Defined.

(** ** Holiday allowance: binary64 rounding *)

Section Binary64.
Local Open Scope Z_scope.

Lemma digits2_size (p : positive) : digits2_pos p = Pos.size p.
Proof. induction p; simpl; congruence. Qed.

Lemma digits2_bounds (p : positive) :
  2 ^ (Zpos (digits2_pos p) - 1) <= Zpos p < 2 ^ Zpos (digits2_pos p).
Proof.
  rewrite digits2_size. split.
  - pose proof (Pos.size_le p) as H.
    apply Pos2Z.pos_le_pos in H. rewrite Pos2Z.inj_pow in H.
    change (Zpos p~0) with (2 * Zpos p) in H.
    replace (Zpos (Pos.size p)) with (1 + (Zpos (Pos.size p) - 1)) in H by lia.
    rewrite Z.pow_add_r in H by lia. change (2 ^ 1) with 2 in H. lia.
  - pose proof (Pos.size_gt p) as H.
    apply Pos2Z.pos_lt_pos in H. now rewrite Pos2Z.inj_pow in H.
Qed.

Lemma digits2_unique (p : positive) (d : Z) :
  2 ^ (d - 1) <= Zpos p < 2 ^ d -> Zpos (digits2_pos p) = d.
Proof.
  intros [Hlo Hhi]. destruct (digits2_bounds p) as [Hlo' Hhi'].
  assert (Hd : 0 < d).
  { destruct (Z_lt_le_dec 0 d) as [|Hle]; [assumption|].
    assert (2 ^ d <= 2 ^ 0) by (destruct d; simpl; try lia;
                                 rewrite Z.pow_neg_r; lia).
    simpl in H. lia. }
  destruct (Z.lt_trichotomy (Zpos (digits2_pos p)) d) as [H|[H|H]]; [|exact H|].
  - assert (2 ^ Zpos (digits2_pos p) <= 2 ^ (d - 1))
      by (apply Z.pow_le_mono_r; lia). lia.
  - assert (2 ^ d <= 2 ^ (Zpos (digits2_pos p) - 1))
      by (apply Z.pow_le_mono_r; lia). lia.
Qed.

Lemma iter_xO (p k : positive) :
  Zpos (Pos.iter xO p k) = Zpos p * 2 ^ Zpos k.
Proof.
  induction k as [|k IH] using Pos.peano_ind.
  - simpl. lia.
  - rewrite Pos.iter_succ, Pos2Z.inj_succ, Z.pow_succ_r by lia.
    change (Zpos (Pos.iter xO p k)~0) with (2 * Zpos (Pos.iter xO p k)).
    rewrite IH. ring.
Qed.

Lemma iter_pos_nat {A : Type} (f : A -> A) (n : positive) (x : A) :
  iter_pos f n x = Nat.iter (Pos.to_nat n) f x.
Proof.
  revert x. induction n as [n IH|n IH|]; intros x.
  - change (iter_pos f n~1 x) with (iter_pos f n (iter_pos f n (f x))).
    rewrite !IH, Pos2Nat.inj_xI.
    replace (S (2 * Pos.to_nat n))%nat
      with (Pos.to_nat n + S (Pos.to_nat n))%nat by lia.
    now rewrite Nat.iter_add, Nat.iter_succ_r.
  - change (iter_pos f n~0 x) with (iter_pos f n (iter_pos f n x)).
    rewrite !IH, Pos2Nat.inj_xO.
    replace (2 * Pos.to_nat n)%nat with (Pos.to_nat n + Pos.to_nat n)%nat by lia.
    now rewrite Nat.iter_add.
  - reflexivity.
Qed.

Lemma shr_1_nonneg (q : Z) (r s : bool) :
  0 <= q ->
  shr_1 (Build_shr_record q r s) =
  Build_shr_record (q / 2) (Z.odd q) (r || s).
Proof.
  intros Hq. rewrite <- Z.div2_div.
  destruct q as [|[q|q|]|q]; try reflexivity. lia.
Qed.

Lemma shifted_step (m k : Z) (st : shr_record) :
  0 <= k -> shifted m k st -> shifted m (k + 1) (shr_1 st).
Proof.
  intros Hk (Hq & rem & Hm & Hrem & Hr). unfold shifted.
  rewrite Z.pow_add_r by lia. change (2 ^ 1) with 2.
  destruct st as [q r s].
  rewrite shr_1_nonneg by exact Hq. cbn [shr_m shr_r] in *.
  pose proof (Z.div_mod q 2 ltac:(lia)) as Hdiv.
  pose proof (Z.mod_pos_bound q 2 ltac:(lia)) as Hmod.
  rewrite Zodd_mod.
  set (X := 2 ^ k) in *. set (h := q / 2) in *. set (b := q mod 2) in *.
  assert (HX : 0 < X) by (apply Z.pow_pos_nonneg; lia).
  clearbody X h b.
  split; [lia|].
  exists (b * X + rem).
  assert (Hb : b = 0 \/ b = 1) by lia.
  split; [rewrite Hm, Hdiv; ring|].
  destruct Hb as [Hb|Hb]; rewrite Hb; split; lia.
Qed.

Lemma shifted_iter (m : Z) (n : nat) :
  0 <= m ->
  shifted m (Z.of_nat n) (Nat.iter n shr_1 (Build_shr_record m false false)).
Proof.
  intros Hm. induction n as [|n IH].
  - simpl. split; [exact Hm|]. exists 0. simpl. repeat split; lia.
  - rewrite Nat2Z.inj_succ, <- Z.add_1_r. simpl Nat.iter.
    apply shifted_step; [lia | exact IH].
Qed.

Lemma round_nearest_even_bounds (st : shr_record) :
  let m1 := round_nearest_even (shr_m st) (loc_of_shr_record st) in
  shr_m st <= m1 <= shr_m st + 1 /\ (m1 = shr_m st + 1 -> shr_r st = true).
Proof.
  destruct st as [q [|] [|]]; simpl; try lia.
  destruct (Z.even q); lia.
Qed.

Lemma fexp_normal (x : Z) : -1021 <= x -> fexp prec emax x = x - 53.
Proof. unfold fexp, emin, prec, emax. lia. Qed.

Lemma int_of_float_neg_exp (m : positive) (e : Z) :
  e < 0 -> int_of_float (S754_finite false m e) = Ok (Zpos m / 2 ^ (- e)).
Proof. destruct e; try lia. reflexivity. Qed.

(** A mantissa of exactly 53 bits is left as it is. *)
Lemma round_aux_exact (m : positive) (e : Z) :
  Zpos (digits2_pos m) = 53 -> -1074 <= e <= 971 ->
  binary_round_aux prec emax false (Zpos m) e loc_Exact = S754_finite false m e.
Proof.
  intros Hd He. unfold binary_round_aux, shr_fexp.
  cbn [Zdigits2 shr_record_of_loc]. rewrite Hd, fexp_normal by lia.
  replace (53 + e - 53 - e) with 0 by lia.
  cbn [shr shr_m loc_of_shr_record round_nearest_even Zdigits2
       shr_record_of_loc].
  rewrite Hd, fexp_normal by lia.
  replace (53 + e - 53 - e) with 0 by lia.
  cbn [shr shr_m].
  replace (e <=? emax - prec) with true; [reflexivity|].
  symmetry. apply Z.leb_le. unfold emax, prec. lia.
Qed.

(** Rounding a longer mantissa, read back as an integer: the quotient by
    [2 ^ n], or one more when the remainder is at least half.  [n] is the
    number of bits dropped. *)
Lemma round_aux_truncated (m : positive) (e n : Z) :
  n = Zpos (digits2_pos m) - 53 -> 0 < n ->
  -1074 <= e + n -> e + n + 1 < 0 ->
  exists m1,
    int_of_float (binary_round_aux prec emax false (Zpos m) e loc_Exact)
      = Ok (m1 / 2 ^ (- (e + n))) /\
    Zpos m / 2 ^ n <= m1 <= Zpos m / 2 ^ n + 1 /\
    (m1 = Zpos m / 2 ^ n + 1 -> 2 ^ n <= 2 * (Zpos m mod 2 ^ n)).
Proof.
  intros Hn Hpos Hlo Hhi.
  pose proof (digits2_bounds m) as Hdig.
  set (D := Zpos (digits2_pos m)) in *.
  assert (HX : 0 < 2 ^ n) by (apply Z.pow_pos_nonneg; lia).
  (* the first shift *)
  unfold binary_round_aux, shr_fexp at 1.
  cbn [Zdigits2 shr_record_of_loc]. fold D.
  rewrite fexp_normal by lia.
  replace (D + e - 53 - e) with n by lia.
  destruct n as [|pn|pn]; try lia.
  cbn [shr]. rewrite iter_pos_nat.
  pose proof (shifted_iter (Zpos m) (Pos.to_nat pn) ltac:(lia)) as Hsh.
  rewrite positive_nat_Z in Hsh.
  set (st := Nat.iter (Pos.to_nat pn) shr_1
               (Build_shr_record (Zpos m) false false)) in *.
  destruct Hsh as (Hq & rem & Hm & Hrem & Hr).
  pose proof (round_nearest_even_bounds st) as Hrne. cbv zeta in Hrne.
  set (m1 := round_nearest_even (shr_m st) (loc_of_shr_record st)) in *.
  destruct Hrne as [Hm1 Hup].
  set (X := 2 ^ Zpos pn) in *.
  assert (Hquot : Zpos m / X = shr_m st).
  { symmetry. apply Z.div_unique with rem; [lia | rewrite Hm; ring]. }
  assert (Hmod : Zpos m mod X = rem).
  { symmetry. apply Z.mod_unique with (shr_m st); [lia | rewrite Hm; ring]. }
  (* the quotient has 53 bits *)
  assert (H52 : 2 ^ 52 <= shr_m st < 2 ^ 53).
  { replace (D - 1) with (52 + Zpos pn) in Hdig by lia.
    replace D with (53 + Zpos pn) in Hdig by lia.
    rewrite !Z.pow_add_r in Hdig by lia. fold X in Hdig.
    split.
    - rewrite <- Hquot. apply Z.div_le_lower_bound; lia.
    - rewrite <- Hquot. apply Z.div_lt_upper_bound; lia. }
  exists m1. split; [|split].
  - (* the second shift *)
    destruct m1 as [|pm1|pm1] eqn:Em1; try lia.
    unfold shr_fexp. cbn [Zdigits2 shr_record_of_loc].
    destruct (Z.eq_dec (Zpos pm1) (2 ^ 53)) as [Hmax|Hmax].
    + injection Hmax as ->.
      replace (e + Zpos pn <=? emax - prec) with true
        by (symmetry; apply Z.leb_le; unfold emax, prec; lia).
      change (Zpos (digits2_pos 9007199254740992)) with 54.
      rewrite fexp_normal by lia.
      replace (54 + (e + Zpos pn) - 53 - (e + Zpos pn)) with 1 by lia.
      cbn [shr iter_pos shr_1 shr_m].
      replace (e + Zpos pn + 1 <=? emax - prec) with true
        by (symmetry; apply Z.leb_le; unfold emax, prec; lia).
      rewrite int_of_float_neg_exp by lia. f_equal.
      replace (- (e + Zpos pn)) with (1 + - (e + Zpos pn + 1)) by lia.
      rewrite Z.pow_add_r by lia.
      change (Zpos 9007199254740992) with (2 ^ 1 * Zpos 4503599627370496).
      rewrite Z.div_mul_cancel_l; [reflexivity | | lia].
      apply Z.pow_nonzero; lia.
    + assert (Hd1 : Zpos (digits2_pos pm1) = 53)
        by (apply digits2_unique; change (53 - 1) with 52; lia).
      rewrite Hd1, fexp_normal by lia.
      replace (53 + (e + Zpos pn) - 53 - (e + Zpos pn)) with 0 by lia.
      cbn [shr shr_m].
      replace (e + Zpos pn <=? emax - prec) with true
        by (symmetry; apply Z.leb_le; unfold emax, prec; lia).
      now rewrite int_of_float_neg_exp by lia.
  - rewrite Hquot. exact Hm1.
  - rewrite Hquot, Hmod. intros H. apply Hr, Hup, H.
Qed.

Lemma fraction_80 : int_truediv 80 100 = Ok (S754_finite false mantissa_80 (-53)).
Proof. vm_compute. reflexivity. Qed.

(** [float(t)] for a positive integer below [2 ^ 53]: no rounding. *)
Lemma float_of_int_exact (p : positive) :
  Zpos p < 2 ^ 53 ->
  exists a,
    float_of_int (Zpos p)
      = Ok (S754_finite false a (Zpos (digits2_pos p) - 53)) /\
    Zpos a = Zpos p * 2 ^ (53 - Zpos (digits2_pos p)) /\
    Zpos (digits2_pos a) = 53.
Proof.
  intros Hp. pose proof (digits2_bounds p) as Hdig.
  set (d := Zpos (digits2_pos p)) in *.
  assert (Hd : 1 <= d <= 53).
  { split; [unfold d; lia|].
    destruct (Z_le_gt_dec d 53) as [|Hgt]; [assumption|].
    assert (2 ^ 53 <= 2 ^ (d - 1)) by (apply Z.pow_le_mono_r; lia). lia. }
  unfold float_of_int, binary_normalize, binary_round, shl_align.
  fold d. rewrite fexp_normal by lia.
  replace (d + 0 - 53) with (d - 53) by lia.
  replace (d - 53 - 0) with (d - 53) by lia.
  destruct (d - 53) as [|k|k] eqn:Ek; try lia.
  - exists p. assert (d = 53) as Hd53 by lia.
    rewrite round_aux_exact by (fold d; lia).
    split; [|split; [|exact Hd53]].
    + reflexivity.
    + fold d. rewrite Hd53. change (2 ^ (53 - 53)) with 1. lia.
  - assert (Hk : Zpos k = 53 - d) by lia.
    assert (Ha : Zpos (Pos.iter xO p k) = Zpos p * 2 ^ (53 - d))
      by (rewrite iter_xO, Hk; reflexivity).
    assert (Hda : Zpos (digits2_pos (Pos.iter xO p k)) = 53).
    { apply digits2_unique. rewrite Ha. change (53 - 1) with 52.
      assert (H52 : 2 ^ 52 = 2 ^ (d - 1) * 2 ^ (53 - d))
        by (rewrite <- Z.pow_add_r by lia; f_equal; lia).
      assert (H53 : 2 ^ 53 = 2 ^ d * 2 ^ (53 - d))
        by (rewrite <- Z.pow_add_r by lia; f_equal; lia).
      assert (0 < 2 ^ (53 - d)) by (apply Z.pow_pos_nonneg; lia).
      rewrite H52, H53.
      split; [apply Z.mul_le_mono_nonneg_r | apply Z.mul_lt_mono_pos_r]; lia. }
    exists (Pos.iter xO p k).
    rewrite round_aux_exact by lia.
    split; [reflexivity | split; [|exact Hda]].
    fold d. exact Ha.
Qed.

(** The arithmetic behind the truncation: [m1] is the rounded quotient of
    [a * mantissa_80] by [x], and [y] the power of two by which the result
    is divided when it is read back as an integer. *)
Lemma truncation_is_floor (t k a q rem m1 x y : Z) :
  0 < t < 1688849860263936 ->
  k = 4 \/ 8 <= k ->
  a = t * k -> a < 2 ^ 53 ->
  a * Zpos mantissa_80 = q * x + rem -> 0 <= rem < x ->
  q <= m1 <= q + 1 -> (m1 = q + 1 -> x <= 2 * rem) ->
  (x = 2 ^ 52 /\ y = 2 * k) \/ (x = 2 ^ 53 /\ y = k) ->
  m1 / y = t * 80 / 100.
Proof.
  intros Ht Hk Ha Ha53 Hp Hrem Hm1 Hup Hxy.
  pose proof (Z.div_mod (t * 80) 100 ltac:(lia)) as Hdiv.
  pose proof (Z.mod_pos_bound (t * 80) 100 ltac:(lia)) as Hmod.
  set (f := t * 80 / 100) in *.
  assert (Hf : 5 * f <= 4 * t /\ 4 * t + 1 <= 5 * f + 5) by lia.
  assert (Hfk1 : 5 * (f * k) <= 4 * a) by (subst a; nia).
  assert (Hfk2 : 4 * a + k <= 5 * (f * k) + 5 * k) by (subst a; nia).
  assert (Hk4 : k = 4 -> a = 4 * t) by lia.
  unfold mantissa_80 in Hp.
  change (2 ^ 53) with 9007199254740992 in *.
  change (2 ^ 52) with 4503599627370496 in *.
  symmetry. apply Z.div_unique with (m1 - y * f).
  - left. destruct Hxy as [[-> ->]|[-> ->]];
      destruct (Z.eq_dec m1 (q + 1)) as [E|E];
      try (specialize (Hup E)); nia.
  - ring.
Qed.

(** [int(total * 0.8)] is the floor of the exact quotient below [3 * 2^49]. *)
Lemma min_sessions_needed_floor (total : Z) :
  0 <= total < 1688849860263936 ->
  (product <- int_mul_float total (S754_finite false mantissa_80 (-53)) ;;
   int_of_float product) = Ok (total * 80 / 100).
Proof.
  intros Ht. destruct total as [|p|p]; [reflexivity | | lia].
  destruct (float_of_int_exact p) as (a & Hfl & Ha & Hda).
  { change (2 ^ 53) with 9007199254740992. lia. }
  pose proof (digits2_bounds p) as Hdp.
  set (d := Zpos (digits2_pos p)) in *.
  assert (Hd : 1 <= d <= 51).
  { split; [unfold d; lia|].
    destruct (Z_le_gt_dec d 51) as [|Hgt]; [assumption|].
    assert (2 ^ 51 <= 2 ^ (d - 1)) by (apply Z.pow_le_mono_r; lia).
    change (2 ^ 51) with 2251799813685248 in *. lia. }
  unfold int_mul_float. rewrite Hfl. cbn [bind]. unfold SFmul. cbn [xorb].
  (* the mantissa of [float(total)] and of the product *)
  set (k := 2 ^ (53 - d)) in *.
  assert (Hk : 0 < k) by (apply Z.pow_pos_nonneg; lia).
  assert (Hk48 : k = 4 \/ 8 <= k).
  { destruct (Z.eq_dec d 51) as [->|Hne]; [left; reflexivity|].
    right. change 8 with (2 ^ 3). apply Z.pow_le_mono_r; lia. }
  pose proof (digits2_bounds a) as Hba. rewrite Hda in Hba.
  change (2 ^ (53 - 1)) with 4503599627370496 in Hba.
  change (2 ^ 53) with 9007199254740992 in Hba.
  pose proof (digits2_bounds (a * mantissa_80)) as Hbp.
  set (D := Zpos (digits2_pos (a * mantissa_80))) in *.
  rewrite Pos2Z.inj_mul in Hbp.
  assert (HD : D = 105 \/ D = 106).
  { assert (2 ^ 104 <= Zpos a * Zpos mantissa_80 < 2 ^ 106).
    { unfold mantissa_80.
      change (2 ^ 104) with (4503599627370496 * 4503599627370496).
      change (2 ^ 106) with (9007199254740992 * 9007199254740992). nia. }
    destruct (Z_le_gt_dec D 104) as [Hle|Hgt].
    - assert (2 ^ D <= 2 ^ 104)
        by (apply Z.pow_le_mono_r; lia). lia.
    - destruct (Z_le_gt_dec 107 D) as [Hle|Hgt'].
      + assert (2 ^ 106 <= 2 ^ (D - 1)) by (apply Z.pow_le_mono_r; lia). lia.
      + lia. }
  destruct (round_aux_truncated (a * mantissa_80) (d - 53 + -53) (D - 53))
    as (m1 & Hint & Hm1 & Hup); try (fold D; lia).
  rewrite Hint. f_equal.
  pose proof (Z.div_mod (Zpos (a * mantissa_80)) (2 ^ (D - 53))
                ltac:(apply Z.pow_nonzero; lia)) as Hdm.
  pose proof (Z.mod_pos_bound (Zpos (a * mantissa_80)) (2 ^ (D - 53))
                ltac:(apply Z.pow_pos_nonneg; lia)) as Hmb.
  rewrite Pos2Z.inj_mul in Hdm, Hmb, Hm1, Hup.
  apply truncation_is_floor
    with (k := k) (a := Zpos a) (x := 2 ^ (D - 53))
         (q := Zpos a * Zpos mantissa_80 / 2 ^ (D - 53))
         (rem := (Zpos a * Zpos mantissa_80) mod 2 ^ (D - 53)); auto.
  - lia.
  - change (2 ^ 53) with 9007199254740992. lia.
  - rewrite Hdm at 1. ring.
  - replace (- (d - 53 + -53 + (D - 53))) with ((53 - d) + (106 - D)) by lia.
    rewrite Z.pow_add_r by lia. fold k.
    destruct HD as [-> | ->]; [left | right]; split; try reflexivity.
    + change (2 ^ (106 - 105)) with 2. ring.
    + change (2 ^ (106 - 106)) with 1. ring.
Qed.

(** C8, as stated, fails for very large totals: at [3 * 2^49] the binary64
    product [total * 0.8] rounds up to the next integer, so
    [min_sessions_needed] is one more than the floor of [total * 80 / 100]
    and the allowance one less. *)
Lemma C8_counterexample :
  holiday_allowance 1688849860263936 0
    = Ok (337769972052787, 1351079888211149) /\
  1688849860263936 * 80 / 100 = 1351079888211148 /\
  holiday_allowance 1688849860263936 0
    <> Ok (Z.max 0 (1688849860263936 - 1688849860263936 * 80 / 100 - 0),
           1688849860263936 * 80 / 100).
Proof.
  assert (H : holiday_allowance 1688849860263936 0
              = Ok (337769972052787, 1351079888211149))
    by (vm_compute; reflexivity).
  split; [exact H | split; [reflexivity|]].
  rewrite H. vm_compute. discriminate.
Qed.

(** C8, amended.  For every total with [0 <= total < 3 * 2^49]
    (1688849860263936) and every missed with [0 <= missed <= total], the
    call with the default 80 per cent returns
    [min_sessions_needed = floor(total * 80 / 100)] and
    [allowance = max(0, (total - min_sessions_needed) - missed)]; so
    [(20, 2)] gives 16 and 2, and [(20, 5)] gives allowance 0. *)
Theorem C8_holiday_allowance (total missed : Z) :
  0 <= total < 1688849860263936 -> 0 <= missed <= total ->
  holiday_allowance total missed =
  Ok (Z.max 0 (total - total * 80 / 100 - missed), total * 80 / 100).
Proof.
  intros Ht _. unfold holiday_allowance, calculate_holiday_allowance.
  rewrite fraction_80. cbn [bind].
  pose proof (min_sessions_needed_floor total Ht) as H.
  destruct (int_mul_float total (S754_finite false mantissa_80 (-53)))
    as [product|e]; cbn [bind] in *; [|discriminate].
  now rewrite H.
Qed.

Lemma C8_holiday_allowance_witness :
  0 <= 20 < 1688849860263936 /\ 0 <= 2 <= 20 /\
  holiday_allowance 20 2 = Ok (2, 16).
Proof.
  assert (H1 : 0 <= 20 < 1688849860263936) by lia.
  assert (H2 : 0 <= 2 <= 20) by lia.
  split; [exact H1 | split; [exact H2 |]].
  exact (C8_holiday_allowance 20 2 H1 H2).
Defined.

Lemma holiday_allowance_over_the_cap : holiday_allowance 20 5 = Ok (0, 16).
Proof. vm_compute. reflexivity. Qed.

End Binary64.

(** * Further properties of the program *)

(** ** Whitespace around a label *)

Lemma isspace_lower_char (c : ascii) :
  Py.isspace (Py.lower_char c) = Py.isspace c.
Proof. destruct c as [[] [] [] [] [] [] [] []]; reflexivity. Qed.

Lemma lower_lstrip (s : string) : Py.lower (Py.lstrip s) = Py.lstrip (Py.lower s).
Proof.
  induction s as [|c s IH]; [reflexivity|]. simpl.
  rewrite isspace_lower_char. now destruct (Py.isspace c).
Qed.

Lemma lower_rstrip (s : string) : Py.lower (Py.rstrip s) = Py.rstrip (Py.lower s).
Proof.
  induction s as [|c s IH]; [reflexivity|]. simpl.
  rewrite <- IH, isspace_lower_char.
  destruct (Py.rstrip s); simpl; [now destruct (Py.isspace c) | reflexivity].
Qed.

Lemma lower_strip (s : string) : Py.lower (Py.strip s) = Py.strip (Py.lower s).
Proof. unfold Py.strip. now rewrite lower_rstrip, lower_lstrip. Qed.

Lemma startswith_empty (k : string) :
  Py.startswith k "" = match k with EmptyString => true | _ => false end.
Proof. now destruct k. Qed.

Lemma contains_lstrip (k s : string) :
  starts_nonspace k = true -> k <> "" ->
  Py.contains k (Py.lstrip s) = Py.contains k s.
Proof.
  intros Hk Hne. destruct k as [|a k]; [congruence|]. simpl in Hk.
  induction s as [|c s IH]; [reflexivity|].
  simpl Py.lstrip. destruct (Py.isspace c) eqn:E; [|reflexivity].
  rewrite IH. simpl.
  destruct (Ascii.eqb a c) eqn:Eac; [|reflexivity].
  apply Ascii.eqb_eq in Eac. subst c. rewrite E in Hk. discriminate.
Qed.

Lemma startswith_rstrip (k s : string) :
  ends_nonspace k = true ->
  Py.startswith k (Py.rstrip s) = Py.startswith k s.
Proof.
  revert k. induction s as [|c s IH]; intros k Hk; [reflexivity|].
  destruct k as [|a k]; [discriminate|].
  simpl Py.rstrip.
  destruct k as [|b k].
  - (* the key is the single character a *)
    simpl in Hk.
    destruct (Py.rstrip s); simpl.
    + destruct (Py.isspace c) eqn:E; simpl.
      * destruct (Ascii.eqb a c) eqn:Eac; [|reflexivity].
        apply Ascii.eqb_eq in Eac. subst c. rewrite E in Hk. discriminate.
      * reflexivity.
    + now rewrite !andb_true_r.
  - assert (Hk' : ends_nonspace (String b k) = true) by exact Hk.
    specialize (IH (String b k) Hk').
    destruct (Py.rstrip s) as [|d r] eqn:Er.
    + rewrite startswith_empty in IH.
      destruct (Py.isspace c);
        change (Py.startswith (String a (String b k)) (String c s))
          with (Ascii.eqb a c && Py.startswith (String b k) s);
        rewrite <- IH, andb_false_r; [reflexivity|].
      simpl. now rewrite andb_false_r.
    + change (Py.startswith (String a (String b k)) (String c (String d r)))
        with (Ascii.eqb a c && Py.startswith (String b k) (String d r)).
      change (Py.startswith (String a (String b k)) (String c s))
        with (Ascii.eqb a c && Py.startswith (String b k) s).
      now rewrite IH.
Qed.

Lemma contains_rstrip (k s : string) :
  ends_nonspace k = true ->
  Py.contains k (Py.rstrip s) = Py.contains k s.
Proof.
  intros Hk. assert (Hne : Py.startswith k "" = false)
    by (destruct k; [discriminate | reflexivity]).
  induction s as [|c s IH]; [reflexivity|].
  pose proof (startswith_rstrip k (String c s) Hk) as Hsw.
  simpl Py.rstrip in *.
  change (Py.contains k (String c s))
    with (Py.startswith k (String c s) || Py.contains k s).
  rewrite <- Hsw, <- IH.
  destruct (Py.rstrip s) as [|d r].
  - simpl Py.contains at 2. rewrite Hne. simpl orb. rewrite orb_false_r.
    destruct (Py.isspace c); simpl; now rewrite ?Hne, ?orb_false_r.
  - reflexivity.
Qed.

Lemma contains_strip (k s : string) :
  starts_nonspace k = true -> ends_nonspace k = true ->
  Py.contains k (Py.strip s) = Py.contains k s.
Proof.
  intros H1 H2. unfold Py.strip.
  rewrite contains_rstrip by assumption.
  apply contains_lstrip; [assumption|]. now destruct k.
Qed.

Lemma is_exam_session_strip (s : string) :
  is_exam_session (Str (Py.strip s)) = is_exam_session (Str s).
Proof.
  unfold is_exam_session. rewrite lower_strip.
  unfold exam_keywords. simpl existsb.
  now rewrite !contains_strip by reflexivity.
Qed.

Lemma normalize_strip (s : string) :
  normalize_session_text (Str (Py.strip s)) = normalize_session_text (Str s).
Proof. unfold normalize_session_text. now rewrite strip_idempotent. Qed.



Lemma all_ascii_complete (c : ascii) : In c all_ascii.
Proof.
  rewrite <- (ascii_nat_embedding c). apply in_map, in_seq.
  pose proof (nat_ascii_bounded c). lia.
Qed.

Lemma case_variants_complete (t : string) : In t (case_variants (Py.lower t)).
Proof.
  induction t as [|c t IH]; [now left|].
  simpl. apply in_flat_map. exists c. split.
  - apply filter_In. split; [apply all_ascii_complete | apply Ascii.eqb_refl].
  - now apply in_map.
Qed.

Lemma placeholder_variants_checked : placeholder_variants_skipped = true.
Proof. vm_compute. reflexivity. Qed.

Lemma placeholder_text_skipped (t : string) :
  Py.in_list (Py.lower t) placeholders = true ->
  is_exam_session (Str t) = false /\
  Py.in_list (Py.lower (normalize_session_text (Str t))) placeholders = true.
Proof.
  intros H. unfold Py.in_list in H. apply existsb_exists in H as (p & Hp & E).
  apply String.eqb_eq in E.
  pose proof placeholder_variants_checked as C.
  unfold placeholder_variants_skipped in C.
  rewrite forallb_forall in C. specialize (C p Hp).
  rewrite forallb_forall in C. specialize (C t).
  rewrite <- E in C. specialize (C (case_variants_complete t)).
  apply andb_true_iff in C as [C1 C2]. apply negb_true_iff in C1. auto.
Qed.

Lemma classify_strip (s : string) (mappings : dict) :
  Ui.get_module_code_for_session (Str (Py.strip s)) mappings
  = Ui.get_module_code_for_session (Str s) mappings /\
  forall w, Cli.get_module_code_for_session (Str (Py.strip s)) mappings w
            = Cli.get_module_code_for_session (Str s) mappings w.
Proof.
  unfold Ui.get_module_code_for_session, Cli.get_module_code_for_session.
  rewrite is_exam_session_strip, normalize_strip. auto.
Qed.

(** X2.  Leading and trailing whitespace of a label makes no difference:
    both variants give the stripped label the answer they give the label
    itself, the command-line variant with the same store and world. *)
Theorem classification_ignores_outer_whitespace (s : string)
    (mappings : dict) :
  Ui.get_module_code_for_session (Str (Py.strip s)) mappings
  = Ui.get_module_code_for_session (Str s) mappings /\
  forall w, Cli.get_module_code_for_session (Str (Py.strip s)) mappings w
            = Cli.get_module_code_for_session (Str s) mappings w.
Proof.
  split.
  - apply classify_strip.
  - intros w. now apply classify_strip.
Qed.

Lemma classify_skipped (s : string) (mappings : dict) :
  Py.strip s = "" \/ Py.in_list (Py.lower (Py.strip s)) placeholders = true ->
  Ui.get_module_code_for_session (Str s) mappings = None /\
  forall w, Cli.get_module_code_for_session (Str s) mappings w
            = Ok (None, mappings, w).
Proof.
  intros H. destruct (classify_strip s mappings) as [<- Hc].
  assert (Hs : is_exam_session (Str (Py.strip s)) = false /\
               negb (Py.truthy (Py.lower
                       (normalize_session_text (Str (Py.strip s)))))
               || Py.in_list (Py.lower
                       (normalize_session_text (Str (Py.strip s))))
                    placeholders = true).
  { destruct H as [-> | H]; [split; reflexivity|].
    destruct (placeholder_text_skipped _ H) as [H1 H2].
    split; [exact H1 | rewrite H2; apply orb_true_r]. }
  destruct Hs as [H1 H2]. split.
  - unfold Ui.get_module_code_for_session. now rewrite H1, H2.
  - intros w. rewrite <- Hc.
    unfold Cli.get_module_code_for_session. now rewrite H1, H2.
Qed.

(** X3.  A label that is blank once stripped, or that is a placeholder
    (inauguration, holiday, break, lunch, nan) up to case and surrounding
    whitespace, is skipped by both variants: the result is [None], the store
    and the world stay as they were, whatever the store holds. *)
Theorem blank_and_placeholder_cells_are_skipped (s : string) (mappings : dict) :
  Py.strip s = "" \/ Py.in_list (Py.lower (Py.strip s)) placeholders = true ->
  Ui.get_module_code_for_session (Str s) mappings = None /\
  forall w, Cli.get_module_code_for_session (Str s) mappings w
            = Ok (None, mappings, w).
Proof. apply classify_skipped. Qed.

Lemma blank_and_placeholder_cells_are_skipped_witness :
  (Py.strip "  HoliDay " = ""
   \/ Py.in_list (Py.lower (Py.strip "  HoliDay ")) placeholders = true) /\
  Ui.get_module_code_for_session (Str "  HoliDay ") [("holiday", "HOL")]
  = None /\
  forall w, Cli.get_module_code_for_session (Str "  HoliDay ")
              [("holiday", "HOL")] w
            = Ok (None, [("holiday", "HOL")], w).
Proof.
  assert (H : Py.strip "  HoliDay " = ""
              \/ Py.in_list (Py.lower (Py.strip "  HoliDay ")) placeholders
                 = true) by (right; reflexivity).
  split; [exact H|].
  exact (blank_and_placeholder_cells_are_skipped "  HoliDay "
           [("holiday", "HOL")] H).
Defined.

(** ** The prompt of the command-line variant *)

Lemma truthy_nonempty (s : string) : Py.truthy s = true <-> s <> "".
Proof. destruct s; simpl; split; congruence. Qed.

Lemma ask_module_code_ok (normalized : string) (mappings : dict) (f : file)
    (input : list string) (code : string) (mappings' : dict) (w' : Cli.world) :
  Cli.ask_module_code normalized mappings f input = Ok (code, mappings', w') ->
  code <> "" /\
  mappings' = dict_set mappings normalized code /\
  Cli.mapping_file w' = Json mappings' /\
  exists skipped line,
    input = (skipped ++ line :: Cli.stdin w')%list /\
    forallb blank_answer skipped = true /\
    code = Py.upper (Py.strip line).
Proof.
  induction input as [|line input IH]; simpl; [discriminate|].
  destruct (Py.truthy (Py.upper (Py.strip line))) eqn:E.
  - intros [= <- <- <-]. simpl. repeat split.
    + now apply truthy_nonempty.
    + now exists [], line.
  - intros H. destruct (IH H) as (H1 & H2 & H3 & skipped & l & -> & Hs & Hc).
    repeat split; auto. exists (line :: skipped), l. simpl.
    unfold blank_answer at 1. rewrite E. auto.
Qed.

Lemma ask_module_code_raise (normalized : string) (mappings : dict) (f : file)
    (input : list string) (e : exn) :
  Cli.ask_module_code normalized mappings f input = Raise e ->
  e = EOFError /\ forallb blank_answer input = true.
Proof.
  induction input as [|line input IH]; simpl.
  - intros [= <-]. auto.
  - unfold blank_answer at 1.
    destruct (Py.truthy (Py.upper (Py.strip line))); [discriminate|].
    intros H. destruct (IH H). auto.
Qed.

Lemma dict_set_new (d : dict) (k v : string) :
  dict_mem d k = false -> dict_set d k v = (d ++ [(k, v)])%list.
Proof.
  unfold dict_mem. induction d as [|[k' v'] d IH]; simpl; [reflexivity|].
  destruct (String.eqb k' k); [discriminate|]. intros H. now rewrite IH.
Qed.

Lemma dict_get_app_other (d : dict) (k v a : string) :
  a <> k -> dict_get (d ++ [(k, v)])%list a = dict_get d a.
Proof.
  intros Hne. induction d as [|[k' v'] d IH]; simpl.
  - destruct (String.eqb k a) eqn:E; [|reflexivity].
    apply String.eqb_eq in E. congruence.
  - now rewrite IH.
Qed.

Lemma cli_scan_app (normalized : string) (d d' : dict) (c : string) :
  Cli.scan normalized d = Some c ->
  Cli.scan normalized (d ++ d')%list = Some c.
Proof.
  induction d as [|[k' c'] d IH]; simpl; [discriminate|].
  now destruct (_ || _).
Qed.

(** A call that leaves the store as it was did not prompt: its answer is
    the exam marker, a skip, an exact key or a match of the scan. *)
Lemma cli_resolved_cases (label : cell) (mappings : dict) (w w' : Cli.world)
    (r : option string) :
  Cli.get_module_code_for_session label mappings w = Ok (r, mappings, w') ->
  let normalized := Py.lower (normalize_session_text label) in
  (is_exam_session label = true /\ r = Some "EXAM") \/
  (is_exam_session label = false /\
   negb (Py.truthy normalized) || Py.in_list normalized placeholders = true /\
   r = None) \/
  (is_exam_session label = false /\
   negb (Py.truthy normalized) || Py.in_list normalized placeholders = false /\
   dict_mem mappings normalized = true /\ r = dict_get mappings normalized) \/
  (is_exam_session label = false /\
   negb (Py.truthy normalized) || Py.in_list normalized placeholders = false /\
   dict_mem mappings normalized = false /\
   Cli.scan normalized mappings = r /\ r <> None).
Proof.
  unfold Cli.get_module_code_for_session. cbv zeta.
  destruct (is_exam_session label).
  { intros H. inversion H. subst. auto. }
  destruct (_ || _) eqn:G.
  { intros H. inversion H. subst. auto. }
  destruct (dict_mem mappings _) eqn:M.
  { intros H. inversion H. subst. right. right. left. auto. }
  destruct (Cli.scan _ mappings) eqn:S.
  - intros H; inversion H; subst. right. right. right.
    repeat split; auto. discriminate.
  - destruct (Cli.ask_module_code _ _ _ _) as [[[code m'] w'']|e] eqn:A;
      simpl; [|discriminate].
    intros H.
    apply ask_module_code_ok in A as (_ & Hset & _).
    rewrite dict_set_new in Hset by assumption.
    assert (Hlen : length m' = length mappings + 1)
      by (rewrite Hset, length_app; reflexivity).
    assert (Hm : m' = mappings) by (inversion H; reflexivity).
    rewrite Hm in Hlen. lia.
Qed.





(** X5.  Whatever a call of the command-line variant returned, a second call
    on the same label with the store it left returns the same answer, asks
    nothing and changes neither the store nor the world. *)
Theorem classification_settles (label : cell) (mappings mappings' : dict)
    (w w' : Cli.world) (r : option string) :
  Cli.get_module_code_for_session label mappings w = Ok (r, mappings', w') ->
  forall w2, Cli.get_module_code_for_session label mappings' w2
             = Ok (r, mappings', w2).
Proof.
  unfold Cli.get_module_code_for_session.
  destruct (is_exam_session label) eqn:Hexam.
  { intros H w2. inversion H. now subst. }
  destruct (_ || _) eqn:G.
  { intros H w2. inversion H. now subst. }
  destruct (dict_mem mappings _) eqn:M.
  { intros H w2. inversion H. subst. now rewrite M. }
  destruct (Cli.scan _ mappings) eqn:S.
  { intros H w2. inversion H. subst. now rewrite M, S. }
  destruct (Cli.ask_module_code _ _ _ _) as [[[code m'] w'']|e] eqn:A;
    simpl; [|discriminate].
  intros H w2. inversion H. subst.
  apply ask_module_code_ok in A as (_ & -> & _).
  unfold dict_mem. now rewrite dict_get_set_same.
Qed.

Lemma classification_settles_witness :
  Cli.get_module_code_for_session (Str "Networks") []
    (Cli.mkWorld Absent ["net"])
  = Ok (Some "NET", [("networks", "NET")],
        Cli.mkWorld (Json [("networks", "NET")]) []) /\
  forall w2, Cli.get_module_code_for_session (Str "Networks")
               [("networks", "NET")] w2
             = Ok (Some "NET", [("networks", "NET")], w2).
Proof.
  split; [reflexivity|].
  exact (classification_settles (Str "Networks") [] [("networks", "NET")]
           (Cli.mkWorld Absent ["net"])
           (Cli.mkWorld (Json [("networks", "NET")]) []) (Some "NET") eq_refl).
Defined.

(** X6.  Recording a key that the store neither holds nor matches leaves
    every label that the store already resolved (or skipped) with the same
    answer. *)
Theorem learning_keeps_resolved_labels (label : cell) (mappings : dict)
    (w w' w0 : Cli.world) (r : option string) (key code : string) :
  Cli.get_module_code_for_session label mappings w = Ok (r, mappings, w') ->
  dict_mem mappings key = false ->
  Cli.scan key mappings = None ->
  forall w2,
    Cli.get_module_code_for_session label
      (fst (Cli.record_mapping key code mappings w0)) w2
    = Ok (r, fst (Cli.record_mapping key code mappings w0), w2).
Proof.
  intros H Hkey Hscan w2. simpl fst. rewrite (dict_set_new _ _ _ Hkey).
  apply cli_resolved_cases in H. cbv zeta in H.
  unfold Cli.get_module_code_for_session.
  destruct H as [[-> ->] | [(-> & -> & ->) | [(-> & -> & M & ->)
                | (-> & -> & M & S & Hr)]]]; try reflexivity.
  - assert (Hne : Py.lower (normalize_session_text label) <> key).
    { intros E. rewrite E in M. congruence. }
    unfold dict_mem in *. rewrite (dict_get_app_other _ _ _ _ Hne).
    destruct (dict_get mappings _); [reflexivity | discriminate].
  - destruct r as [c|]; [|congruence].
    assert (Hne : Py.lower (normalize_session_text label) <> key).
    { intros E. rewrite E in S. congruence. }
    unfold dict_mem in *. rewrite (dict_get_app_other _ _ _ _ Hne).
    destruct (dict_get mappings _); [discriminate|].
    now rewrite (cli_scan_app _ _ _ _ S).
Qed.

Lemma learning_keeps_resolved_labels_witness :
  Cli.get_module_code_for_session (Str "Data Structures Lab")
    [("data", "DSA")] (Cli.mkWorld Absent [])
  = Ok (Some "DSA", [("data", "DSA")], Cli.mkWorld Absent []) /\
  dict_mem [("data", "DSA")] "structures" = false /\
  Cli.scan "structures" [("data", "DSA")] = None /\
  forall w2,
    Cli.get_module_code_for_session (Str "Data Structures Lab")
      [("data", "DSA"); ("structures", "STR")] w2
    = Ok (Some "DSA", [("data", "DSA"); ("structures", "STR")], w2).
Proof.
  split; [reflexivity | split; [reflexivity | split; [reflexivity|]]].
  exact (learning_keeps_resolved_labels (Str "Data Structures Lab")
           [("data", "DSA")] (Cli.mkWorld Absent []) (Cli.mkWorld Absent [])
           (Cli.mkWorld Absent []) (Some "DSA") "structures" "STR"
           eq_refl eq_refl eq_refl).
Defined.

(** X7.  A label that the command-line variant resolves to a code without
    asking is resolved by the Streamlit variant as well, with the same code
    when the label is an exam session or an exact key of the store. *)
Theorem ui_resolves_what_cli_resolves (label : cell) (mappings : dict)
    (w w' : Cli.world) (code : string) :
  Cli.get_module_code_for_session label mappings w
  = Ok (Some code, mappings, w') ->
  exists code', Ui.get_module_code_for_session label mappings = Some code' /\
    (dict_mem mappings (Py.lower (normalize_session_text label)) = true
     \/ is_exam_session label = true -> code' = code).
Proof.
  intros H. apply cli_resolved_cases in H. cbv zeta in H.
  unfold Ui.get_module_code_for_session.
  destruct H as [[-> H] | [(-> & -> & H) | [(-> & -> & M & H)
                | (-> & -> & M & S & Hr)]]]; try discriminate.
  - exists "EXAM". split; [reflexivity|]. intros _. congruence.
  - rewrite M, <- H. exists code. auto.
  - rewrite M. apply cli_scan_some in S as [k Hk].
    destruct (first_key_exists (ui_match (Py.lower
                (normalize_session_text label))) mappings k code)
      as (k' & c' & Hfirst).
    + now apply first_key_In with
        (substring_match (Py.lower (normalize_session_text label))).
    + destruct Hk as (_ & _ & _ & Hk & _). unfold ui_match. now rewrite Hk.
    + exists c'. split; [now apply ui_scan_first with k'|].
      intros [E|E]; discriminate.
Qed.

Lemma ui_resolves_what_cli_resolves_witness :
  Cli.get_module_code_for_session (Str "Data Structures Lab")
    [("data", "DSA")] (Cli.mkWorld Absent [])
  = Ok (Some "DSA", [("data", "DSA")], Cli.mkWorld Absent []) /\
  exists code',
    Ui.get_module_code_for_session (Str "Data Structures Lab")
      [("data", "DSA")] = Some code' /\
    (dict_mem [("data", "DSA")]
       (Py.lower (normalize_session_text (Str "Data Structures Lab"))) = true
     \/ is_exam_session (Str "Data Structures Lab") = true -> code' = "DSA").
Proof.
  split; [reflexivity|].
  exact (ui_resolves_what_cli_resolves (Str "Data Structures Lab")
           [("data", "DSA")] (Cli.mkWorld Absent []) (Cli.mkWorld Absent [])
           "DSA" eq_refl).
Defined.

(** ** Frames that the loader returns *)

Lemma in_list_spec (x : string) (xs : list string) :
  Py.in_list x xs = true <-> In x xs.
Proof.
  unfold Py.in_list. rewrite existsb_exists. split.
  - intros (y & Hin & E). apply String.eqb_eq in E. now subst.
  - intros H. exists x. split; [exact H | apply String.eqb_refl].
Qed.

Lemma extra_column_name (n : nat) (col : string) :
  In col (extra_columns n) -> Py.startswith "Extra_" col = true.
Proof.
  unfold extra_columns. rewrite in_map_iff. intros (i & <- & _). reflexivity.
Qed.

Lemma extra_columns_NoDup (n : nat) : NoDup (extra_columns n).
Proof.
  unfold extra_columns. apply Injective_map_NoDup; [|apply seq_NoDup].
  intros i j H. injection H as H.
  apply Unsigned.to_uint_inj.
  pose proof (NilEmpty.usu (Nat.to_uint i)) as Hi.
  pose proof (NilEmpty.usu (Nat.to_uint j)) as Hj.
  rewrite H in Hi. congruence.
Qed.

Lemma filter_all {A : Type} (f : A -> bool) (l : list A) :
  (forall x, In x l -> f x = true) -> filter f l = l.
Proof.
  induction l as [|x l IH]; intros H; [reflexivity|]. simpl.
  rewrite (H x (or_introl eq_refl)). f_equal. apply IH.
  intros y Hy. apply H. now right.
Qed.

Lemma session_columns_of_renamed (n : nat) :
  filter (fun col => Py.in_list col ["Morning"; "Afternoon"]
                     || Py.startswith "Extra_" col)
         (["Date"; "Morning"; "Afternoon"] ++ extra_columns n)%list
  = ("Morning" :: "Afternoon" :: extra_columns n).
Proof.
  rewrite filter_app, (filter_all _ (extra_columns n)).
  - reflexivity.
  - intros col H. rewrite (extra_column_name n col H). apply orb_true_r.
Qed.

Lemma renamed_columns_NoDup (n : nat) :
  NoDup (["Date"; "Morning"; "Afternoon"] ++ extra_columns n)%list.
Proof.
  simpl. repeat constructor; try apply extra_columns_NoDup;
    simpl; intros H;
    repeat (destruct H as [H|H]; [discriminate|]);
    apply extra_column_name in H; discriminate.
Qed.

Lemma load_schedule_some (source : result DataFrame) (df : DataFrame) :
  load_schedule source = Some df ->
  exists df0 first rest,
    source = Ok df0 /\ 3 <= length (columns df0) /\
    dropna_date (rows df0) = first :: rest /\
    df = mkFrame (renamed_columns df0)
           (if is_header first then rest else first :: rest).
Proof.
  destruct source as [df0|e]; [|discriminate].
  intros H. destruct (Nat.ltb (length (columns df0)) 3) eqn:E.
  - apply Nat.ltb_lt in E.
    destruct (load_schedule_too_few_columns df0 E) as [_ Hn]. congruence.
  - apply Nat.ltb_ge in E.
    destruct (dropna_date (rows df0)) as [|first rest] eqn:R.
    + unfold load_schedule, bind, load_schedule_try in H.
      rewrite R in H. destruct (Nat.ltb _ 3); discriminate.
    + rewrite (load_schedule_dated df0 first rest E R) in H.
      injection H as <-. now exists df0, first, rest.
Qed.

(** X8.  A frame that [load_schedule] returns has the columns Date, Morning,
    Afternoon, Extra_0, Extra_1, ..., all distinct; its session columns are
    all its columns but Date; every row has a date, which [row["Date"]]
    reads. *)
Theorem loaded_frame_shape (source : result DataFrame) (df : DataFrame) :
  load_schedule source = Some df ->
  exists n,
    columns df = (["Date"; "Morning"; "Afternoon"] ++ extra_columns n)%list /\
    get_all_session_columns df = "Morning" :: "Afternoon" :: extra_columns n /\
    NoDup (columns df) /\
    Forall (fun row => isna (date_of row) = false) (rows df) /\
    (forall row, In row (rows df) -> row_get df row "Date" = date_of row).
Proof.
  intros H.
  destruct (load_schedule_some source df H)
    as (df0 & first & rest & _ & _ & R & ->).
  exists (length (columns df0) - 3). unfold get_all_session_columns.
  cbn [columns rows]. unfold renamed_columns.
  split; [reflexivity | split; [apply session_columns_of_renamed |
    split; [apply renamed_columns_NoDup | split]]].
  - assert (Hall : Forall (fun row => isna (date_of row) = false)
                     (first :: rest)).
    { rewrite <- R. apply Forall_forall. intros row Hin.
      apply filter_In in Hin as [_ Hf]. now apply negb_true_iff in Hf. }
    destruct (is_header first); [now inversion Hall | exact Hall].
  - intros row _. unfold row_get, date_of. cbn [columns]. simpl.
    now destruct row.
Qed.

Lemma loaded_frame_shape_witness :
  let source :=
    Ok (mkFrame ["Unnamed: 0"; "Unnamed: 1"; "Unnamed: 2"; "Unnamed: 3"]
          [[Str "Date"; Str "AM"; Str "PM"; Str "Evening"];
           [NaN; Str "Holiday"; NaN; NaN];
           [Str "2024-01-01"; Str "DSA Lecture"; Str "OOP Lab"; NaN]]) in
  let df :=
    mkFrame ["Date"; "Morning"; "Afternoon"; "Extra_0"]
      [[Str "2024-01-01"; Str "DSA Lecture"; Str "OOP Lab"; NaN]] in
  load_schedule source = Some df /\
  exists n,
    columns df = (["Date"; "Morning"; "Afternoon"] ++ extra_columns n)%list /\
    get_all_session_columns df = "Morning" :: "Afternoon" :: extra_columns n /\
    NoDup (columns df) /\
    Forall (fun row => isna (date_of row) = false) (rows df) /\
    (forall row, In row (rows df) -> row_get df row "Date" = date_of row).
Proof.
  cbv zeta. split; [reflexivity|].
  exact (loaded_frame_shape
           (Ok (mkFrame
                  ["Unnamed: 0"; "Unnamed: 1"; "Unnamed: 2"; "Unnamed: 3"]
                  [[Str "Date"; Str "AM"; Str "PM"; Str "Evening"];
                   [NaN; Str "Holiday"; NaN; NaN];
                   [Str "2024-01-01"; Str "DSA Lecture"; Str "OOP Lab"; NaN]]))
           (mkFrame ["Date"; "Morning"; "Afternoon"; "Extra_0"]
              [[Str "2024-01-01"; Str "DSA Lecture"; Str "OOP Lab"; NaN]])
           eq_refl).
Defined.

(** ** The module list and the session count *)

Lemma in_cell_texts (df : DataFrame) (s : string) :
  In s (cell_texts df) <->
  exists col row, In col (get_all_session_columns df) /\ In row (rows df) /\
                  row_get df row col = Str s.
Proof.
  unfold cell_texts, column. rewrite in_flat_map. split.
  - intros (col & Hcol & H). apply in_flat_map in H as (c & Hc & Hs).
    apply in_map_iff in Hc as (row & <- & Hrow).
    exists col, row. destruct (row_get df row col) as [|t]; [contradiction|].
    destruct Hs as [->|[]]. auto.
  - intros (col & row & Hcol & Hrow & E). exists col. split; [exact Hcol|].
    apply in_flat_map. exists (Str s). split; [|now left].
    apply in_map_iff. now exists row.
Qed.

Lemma set_add_in (x y : string) (l : list string) :
  In x (set_add y l) <-> x = y \/ In x l.
Proof.
  unfold set_add. destruct (Py.in_list y l) eqn:E.
  - apply in_list_spec in E. split; [auto | intros [->|H]; auto].
  - rewrite in_app_iff. simpl. intuition.
Qed.

Lemma set_add_NoDup (y : string) (l : list string) :
  NoDup l -> NoDup (set_add y l).
Proof.
  unfold set_add. destruct (Py.in_list y l) eqn:E; [auto|].
  intros H. apply NoDup_app; [exact H | repeat constructor; intros [] |].
  intros x Hx [<-|[]]. apply in_list_spec in Hx. congruence.
Qed.

Lemma add_module_in (mappings : dict) (modules : list string) (s x : string) :
  In x (UiSchedule.add_module mappings modules s) <->
  In x modules \/ offers mappings s x.
Proof.
  unfold UiSchedule.add_module, offers.
  destruct (worth_mapping (Py.strip s)); [|intuition discriminate].
  destruct (Ui.get_module_code_for_session _ mappings) as [code|];
    [|intuition discriminate].
  destruct (Py.truthy code) eqn:T; simpl.
  - destruct (String.eqb code "EXAM") eqn:E; simpl.
    + apply String.eqb_eq in E. subst.
      split; [auto | intros [H|(_ & [= <-] & _ & H)]; [auto | congruence]].
    + apply String.eqb_neq in E. apply truthy_nonempty in T.
      rewrite set_add_in. split.
      * intros [->|H]; auto.
      * intros [H|(_ & [= ->] & _)]; auto.
  - assert (code = "") as -> by (now destruct code).
    split; [auto | intros [H|(_ & [= <-] & H & _)]; [auto | congruence]].
Qed.

Lemma add_module_NoDup (mappings : dict) (modules : list string) (s : string) :
  NoDup modules -> NoDup (UiSchedule.add_module mappings modules s).
Proof.
  intros H. unfold UiSchedule.add_module.
  destruct (worth_mapping _); [|exact H].
  destruct (Ui.get_module_code_for_session _ _); [|exact H].
  destruct (_ && _); [now apply set_add_NoDup | exact H].
Qed.

Lemma fold_add_module (mappings : dict) (sessions : list string)
    (modules : list string) (x : string) :
  In x (fold_left (UiSchedule.add_module mappings) sessions modules) <->
  In x modules \/ exists s, In s sessions /\ offers mappings s x.
Proof.
  revert modules. induction sessions as [|s sessions IH]; intros modules.
  - simpl. split; [auto | intros [H|(s & [] & _)]; exact H].
  - simpl. rewrite IH, add_module_in. split.
    + intros [[H|H]|(s' & Hs & H)]; eauto.
    + intros [H|(s' & [<-|Hs] & H)]; eauto.
Qed.

Lemma fold_add_module_NoDup (mappings : dict) (sessions : list string)
    (modules : list string) :
  NoDup modules ->
  NoDup (fold_left (UiSchedule.add_module mappings) sessions modules).
Proof.
  revert modules. induction sessions as [|s sessions IH]; intros modules H.
  - exact H.
  - simpl. now apply IH, add_module_NoDup.
Qed.

Lemma strip_nonempty (s : string) : Py.strip s <> "" -> s <> "".
Proof. intros H ->. now apply H. Qed.

Lemma worth_mapping_of_classified (s x : string) (mappings : dict) :
  Ui.get_module_code_for_session (Str s) mappings = Some x ->
  worth_mapping (Py.strip s) = true.
Proof.
  intros H. unfold worth_mapping.
  destruct (Py.truthy (Py.strip s)) eqn:T.
  - destruct (Py.in_list (Py.lower (Py.strip s)) placeholders) eqn:P;
      [|reflexivity].
    destruct (classify_skipped s mappings (or_intror P)) as [Hn _]. congruence.
  - assert (Py.strip s = "") as E by (now destruct (Py.strip s)).
    destruct (classify_skipped s mappings (or_introl E)) as [Hn _]. congruence.
Qed.

Lemma build_module_list_in (all_sessions : list string) (mappings : dict)
    (x : string) :
  In x (UiSchedule.build_module_list all_sessions mappings) <->
  exists s, In s all_sessions /\ offers mappings s x.
Proof.
  unfold UiSchedule.build_module_list.
  pose proof (StringSort.Permuted_sort
                (fold_left (UiSchedule.add_module mappings)
                           all_sessions [])) as P.
  split.
  - intros H. apply (Permutation_in _ (Permutation_sym P)) in H.
    apply fold_add_module in H as [[]|H]. exact H.
  - intros H. apply (Permutation_in _ P). apply fold_add_module. now right.
Qed.

(** X10.  Whatever texts pandas makes of the session columns, the module
    list of the Streamlit variant is sorted, has no repetition, never holds
    ["EXAM"] nor the empty code, and holds exactly the codes, other than
    these two, that [get_module_code_for_session] gives to one of those
    texts. *)
Theorem module_list_sorted_and_sound (all_sessions : list string)
    (mappings : dict) :
  Sorted (fun x y => String.leb x y = true)
         (UiSchedule.build_module_list all_sessions mappings) /\
  NoDup (UiSchedule.build_module_list all_sessions mappings) /\
  ~ In "EXAM" (UiSchedule.build_module_list all_sessions mappings) /\
  ~ In "" (UiSchedule.build_module_list all_sessions mappings) /\
  forall x,
    In x (UiSchedule.build_module_list all_sessions mappings) <->
    x <> "" /\ x <> "EXAM" /\
    exists s, In s all_sessions /\
              Ui.get_module_code_for_session (Str s) mappings = Some x.
Proof.
  split; [|split; [|split; [|split]]].
  - apply StringSort.Sorted_sort.
  - unfold UiSchedule.build_module_list.
    apply (Permutation_NoDup (StringSort.Permuted_sort _)).
    apply fold_add_module_NoDup. constructor.
  - intros H. apply build_module_list_in in H as (s & _ & _ & _ & _ & H).
    now apply H.
  - intros H. apply build_module_list_in in H as (s & _ & _ & _ & H & _).
    now apply H.
  - intros x. rewrite build_module_list_in. split.
    + intros (s & Hs & _ & H & Hne & Hex).
      split; [exact Hne | split; [exact Hex|]].
      exists s. split; [exact Hs|].
      now rewrite <- (proj1 (classify_strip s mappings)).
    + intros (Hne & Hex & s & Hs & H). exists s. split; [exact Hs|].
      split; [now apply worth_mapping_of_classified with x mappings|].
      split; [now rewrite (proj1 (classify_strip s mappings)) | auto].
Qed.

(** *** Counting *)

Lemma count_rows_fold (df : DataFrame) (module_name : string)
    (mappings : dict) (rs : list (list cell)) (total : nat)
    (details : list day_detail) :
  fold_left (UiSchedule.count_row df module_name mappings) rs (total, details)
  = (total + length (flat_map
                       (UiSchedule.sessions_of_row df module_name mappings) rs),
     (details ++ days_of df module_name mappings rs)%list).
Proof.
  revert total details. induction rs as [|row rs IH]; intros total details.
  - simpl. now rewrite Nat.add_0_r, app_nil_r.
  - simpl. unfold UiSchedule.count_row at 2. cbn [fst snd].
    destruct (UiSchedule.sessions_of_row df module_name mappings row)
      as [|d day] eqn:E.
    + rewrite IH. simpl. now rewrite Nat.add_0_r.
    + rewrite IH, length_app, <- app_assoc. simpl. f_equal. lia.
Qed.

Lemma count_lectures_spec (df : DataFrame) (module_name : string)
    (mappings : dict) :
  UiSchedule.count_lectures_for_module df module_name mappings
  = (length (flat_map (UiSchedule.sessions_of_row df module_name mappings)
                      (rows df)),
     days_of df module_name mappings (rows df)).
Proof. unfold UiSchedule.count_lectures_for_module. apply count_rows_fold. Qed.

Lemma days_sessions (df : DataFrame) (module_name : string)
    (mappings : dict) (rs : list (list cell)) :
  flat_map day_sessions (days_of df module_name mappings rs)
  = flat_map (UiSchedule.sessions_of_row df module_name mappings) rs.
Proof.
  induction rs as [|row rs IH]; [reflexivity|].
  unfold days_of in *. simpl.
  destruct (UiSchedule.sessions_of_row df module_name mappings row) eqn:E.
  - exact IH.
  - simpl. now rewrite IH.
Qed.

Lemma sessions_of_row_in (df : DataFrame) (module_name : string)
    (mappings : dict) (row : list cell) (d : session_detail) :
  In d (UiSchedule.sessions_of_row df module_name mappings row) <->
  exists col,
    In col (get_all_session_columns df) /\
    let text := session_text_of (row_get df row col) in
    text <> "" /\
    UiSchedule.is_for_module (Str text) module_name mappings = true /\
    d = mkDetail (time_slot_of col) text
          (if is_tutorial_or_practical (Str text)
           then "Tutorial/Practical" else "Lecture").
Proof.
  unfold UiSchedule.sessions_of_row. rewrite in_flat_map. cbv zeta.
  split; intros (col & Hcol & H); exists col; (split; [exact Hcol|]).
  - destruct (Py.truthy _) eqn:T; [|contradiction].
    destruct (UiSchedule.is_for_module _ _ _) eqn:F; [|contradiction].
    destruct H as [<-|[]]. apply truthy_nonempty in T. auto.
  - destruct H as (Hne & F & ->). apply truthy_nonempty in Hne.
    rewrite Hne, F. now left.
Qed.

Lemma is_for_module_spec (text module_name : string) (mappings : dict) :
  UiSchedule.is_for_module (Str text) module_name mappings = true <->
  Ui.get_module_code_for_session (Str text) mappings = Some module_name.
Proof.
  unfold UiSchedule.is_for_module.
  destruct (Ui.get_module_code_for_session _ _) as [c|].
  - rewrite String.eqb_eq. split; congruence.
  - split; discriminate.
Qed.

Lemma counted_sessions (df : DataFrame) (module_name : string)
    (mappings : dict) (rs : list (list cell)) :
  Forall (fun session =>
            Ui.get_module_code_for_session (Str (detail_text session)) mappings
            = Some module_name /\
            detail_text session <> "" /\
            (detail_type session = "Lecture" \/
             detail_type session = "Tutorial/Practical"))
         (flat_map (UiSchedule.sessions_of_row df module_name mappings) rs).
Proof.
  apply Forall_forall. intros d H. apply in_flat_map in H as (row & _ & H).
  apply sessions_of_row_in in H as (col & _ & Hne & F & ->).
  cbn [detail_text detail_type].
  split; [now apply is_for_module_spec | split; [exact Hne|]].
  destruct (is_tutorial_or_practical
              (Str (session_text_of (row_get df row col)))); auto.
Qed.

Lemma two_types_count (l : list session_detail) :
  Forall (fun session => detail_type session = "Lecture" \/
                         detail_type session = "Tutorial/Practical") l ->
  length l
  = length (filter (fun session => String.eqb (detail_type session) "Lecture") l)
    + length (filter (fun session =>
                        String.eqb (detail_type session) "Tutorial/Practical")
                     l).
Proof.
  induction 1 as [|d l Hd _ IH]; [reflexivity|].
  simpl. destruct Hd as [-> | ->]; simpl; lia.
Qed.

Lemma days_of_nonempty (df : DataFrame) (module_name : string)
    (mappings : dict) (rs : list (list cell)) :
  Forall (fun day => day_sessions day <> [])
         (days_of df module_name mappings rs).
Proof.
  apply Forall_forall. intros day H. apply in_flat_map in H as (row & _ & H).
  destruct (UiSchedule.sessions_of_row df module_name mappings row);
    [contradiction|].
  destruct H as [<-|[]]. discriminate.
Qed.

(** X11.  In the result of [count_lectures_for_module] the total is the
    number of sessions listed in the details, and the number of lectures
    plus the number of tutorials/practicals that [main] shows beside it; no
    listed day is empty, and every listed session is a non-empty text that
    classifies to the module. *)
Theorem count_breakdown (df : DataFrame) (module_name : string)
    (mappings : dict) :
  let total := fst (UiSchedule.count_lectures_for_module df module_name mappings) in
  let details := snd (UiSchedule.count_lectures_for_module df module_name mappings) in
  total = length (flat_map day_sessions details) /\
  total = UiSchedule.count_of_type "Lecture" details
          + UiSchedule.count_of_type "Tutorial/Practical" details /\
  Forall (fun day => day_sessions day <> []) details /\
  Forall (fun session =>
            Ui.get_module_code_for_session (Str (detail_text session)) mappings
            = Some module_name /\ detail_text session <> "")
         (flat_map day_sessions details).
Proof.
  cbv zeta. rewrite count_lectures_spec. cbn [fst snd].
  unfold UiSchedule.count_of_type. rewrite days_sessions.
  pose proof (counted_sessions df module_name mappings (rows df)) as H.
  split; [reflexivity | split; [|split]].
  - apply two_types_count. eapply Forall_impl; [|exact H].
    cbv beta. intros d (_ & _ & Ht). exact Ht.
  - apply days_of_nonempty.
  - eapply Forall_impl; [|exact H].
    cbv beta. intros d (Hc & Hne & _). auto.
Qed.

(** With the texts that pandas makes of an integer column beside a float
    column, the two functions part: the list sees [5.0], the count sees
    [5], and a module that the count finds twice is not in the list. *)
Lemma offered_needs_own_texts :
  let df := mkFrame ["Date"; "Morning"; "Afternoon"]
              [[Str "2024-01-01"; Str "5"; Str "7.0"];
               [Str "2024-01-02"; Str "5"; NaN]] in
  let all_sessions := ["5.0"; "5.0"; "7.0"] in
  cell_texts df = ["5"; "5"; "7.0"] /\
  UiSchedule.build_module_list all_sessions [("a5", "X")] = [] /\
  fst (UiSchedule.count_lectures_for_module df "X" [("a5", "X")]) = 2.
Proof. cbv zeta. repeat split. Qed.

(** X12.  When the texts that pandas makes of the session columns are the
    cells' own texts, a module other than ["EXAM"] and the empty code is in
    the module list exactly when [count_lectures_for_module] finds at least
    one session for it: the list strips the texts and filters placeholders
    before it classifies, the count does neither, and the two agree all the
    same. *)
Theorem offered_iff_counted (df : DataFrame) (all_sessions : list string)
    (mappings : dict) (module_name : string) :
  reads_own_texts df all_sessions ->
  module_name <> "" -> module_name <> "EXAM" ->
  In module_name (UiSchedule.build_module_list all_sessions mappings) <->
  1 <= fst (UiSchedule.count_lectures_for_module df module_name mappings).
Proof.
  intros Hown Hne Hexam. rewrite build_module_list_in, count_lectures_spec.
  cbn [fst]. split.
  - intros (s & Hs & Hw & Hget & _).
    apply Hown, in_cell_texts in Hs as (col & row & Hcol & Hrow & E).
    rewrite (proj1 (classify_strip s mappings)) in Hget.
    assert (Hin : In (mkDetail (time_slot_of col) s
                        (if is_tutorial_or_practical (Str s)
                         then "Tutorial/Practical" else "Lecture"))
                     (flat_map (UiSchedule.sessions_of_row df module_name
                                  mappings) (rows df))).
    { apply in_flat_map. exists row. split; [exact Hrow|].
      apply sessions_of_row_in. exists col. split; [exact Hcol|].
      cbv zeta. rewrite E. cbn [session_text_of].
      split; [|split; [now apply is_for_module_spec | reflexivity]].
      apply strip_nonempty. unfold worth_mapping in Hw.
      apply andb_true_iff in Hw as [Hw _]. now apply truthy_nonempty. }
    destruct (flat_map _ (rows df)); [contradiction | simpl; lia].
  - intros H.
    destruct (flat_map _ (rows df)) as [|d l] eqn:E; [simpl in H; lia|].
    assert (Hin : In d (flat_map (UiSchedule.sessions_of_row df module_name
                                    mappings) (rows df)))
      by (rewrite E; now left).
    apply in_flat_map in Hin as (row & Hrow & Hin).
    apply sessions_of_row_in in Hin as (col & Hcol & Htext & F & _).
    apply is_for_module_spec in F.
    destruct (row_get df row col) as [|s] eqn:R; [now elim Htext|].
    cbn [session_text_of] in *.
    exists s. split.
    + apply Hown, in_cell_texts. now exists col, row.
    + split; [now apply worth_mapping_of_classified with module_name mappings|].
      split; [now rewrite (proj1 (classify_strip s mappings)) | auto].
Qed.

Lemma offered_iff_counted_witness :
  let df := mkFrame ["Date"; "Morning"; "Afternoon"]
              [[Str "2024-01-01"; Str "DSA Lecture - Dr Smith";
                Str " DSA Tutorial "];
               [Str "2024-01-02"; Str "Holiday"; Str "DSA Exam"]] in
  let all_sessions :=
    ["DSA Lecture - Dr Smith"; "Holiday"; " DSA Tutorial "; "DSA Exam"] in
  reads_own_texts df all_sessions /\
  "DSA" <> "" /\ "DSA" <> "EXAM" /\
  UiSchedule.build_module_list all_sessions [("dsa", "DSA")] = ["DSA"] /\
  (In "DSA" (UiSchedule.build_module_list all_sessions [("dsa", "DSA")]) <->
   1 <= fst (UiSchedule.count_lectures_for_module df "DSA" [("dsa", "DSA")])).
Proof.
  cbv zeta.
  assert (H0 : reads_own_texts
                 (mkFrame ["Date"; "Morning"; "Afternoon"]
                    [[Str "2024-01-01"; Str "DSA Lecture - Dr Smith";
                      Str " DSA Tutorial "];
                     [Str "2024-01-02"; Str "Holiday"; Str "DSA Exam"]])
                 ["DSA Lecture - Dr Smith"; "Holiday"; " DSA Tutorial ";
                  "DSA Exam"])
    by (intros s; reflexivity).
  assert (H1 : "DSA" <> "") by discriminate.
  assert (H2 : "DSA" <> "EXAM") by discriminate.
  split; [exact H0 | split; [exact H1 | split; [exact H2 |
    split; [reflexivity|]]]].
  exact (offered_iff_counted
           (mkFrame ["Date"; "Morning"; "Afternoon"]
              [[Str "2024-01-01"; Str "DSA Lecture - Dr Smith";
                Str " DSA Tutorial "];
               [Str "2024-01-02"; Str "Holiday"; Str "DSA Exam"]])
           ["DSA Lecture - Dr Smith"; "Holiday"; " DSA Tutorial "; "DSA Exam"]
           [("dsa", "DSA")] "DSA" H0 H1 H2).
Defined.

(** ** Unmapped sessions *)

Lemma has_partial_match_scan (normalized : string) (mappings : dict) :
  UiSchedule.has_partial_match normalized (map fst mappings)
  = match Ui.scan normalized mappings with Some _ => true | None => false end.
Proof.
  induction mappings as [|[k c] mappings IH]; [reflexivity|].
  simpl. destruct (_ || _); [reflexivity|].
  destruct (String.eqb _ _); [reflexivity | exact IH].
Qed.

Lemma unmapped_entries_in (sessions : list string) (mappings : dict)
    (e : string * string) :
  In e (UiSchedule.unmapped_entries sessions mappings) <->
  (exists s, In s sessions /\ fst e = Py.strip s) /\ unmapped_entry mappings e.
Proof.
  unfold UiSchedule.unmapped_entries, unmapped_entry.
  rewrite in_flat_map. cbv zeta. split.
  - intros (s & Hs & H).
    destruct (worth_mapping (Py.strip s)) eqn:W; [|contradiction].
    destruct (is_exam_session (Str (Py.strip s))) eqn:X; [contradiction|].
    destruct (dict_mem mappings _) eqn:M; [contradiction|].
    rewrite has_partial_match_scan in H.
    destruct (Ui.scan _ mappings) eqn:S; [contradiction|].
    destruct H as [<-|[]]. cbn [fst snd]. eauto 10.
  - intros ((s & Hs & E) & W & N & X & M & S). exists s. split; [exact Hs|].
    destruct e as [session normalized]. cbn [fst snd] in *. subst.
    rewrite W, X, M, has_partial_match_scan, S. now left.
Qed.

Lemma unique_in (seen : list string) (l : list (string * string))
    (e : string * string) :
  In e (UiSchedule.unique_by_normalized seen l) -> In e l /\ ~ In (snd e) seen.
Proof.
  revert seen. induction l as [|[s n] l IH]; intros seen; [intros []|].
  simpl. destruct (Py.in_list n seen) eqn:E.
  - intros H. destruct (IH _ H). auto.
  - intros [<-|H].
    + split; [now left|]. cbn. rewrite <- in_list_spec. congruence.
    + destruct (IH _ H) as [H1 H2]. split; [now right|].
      intros Hin. apply H2. apply set_add_in. now right.
Qed.

Lemma unique_NoDup (seen : list string) (l : list (string * string)) :
  NoDup (map snd (UiSchedule.unique_by_normalized seen l)).
Proof.
  revert seen. induction l as [|[s n] l IH]; intros seen; [constructor|].
  simpl. destruct (Py.in_list n seen); [apply IH|].
  simpl. constructor; [|apply IH].
  intros H. apply in_map_iff in H as (e & He & Hin).
  apply unique_in in Hin as [_ Hin]. apply Hin. rewrite He.
  apply set_add_in. now left.
Qed.

Lemma unique_complete (seen : list string) (l : list (string * string))
    (e : string * string) :
  In e l ->
  In (snd e) seen \/
  In (snd e) (map snd (UiSchedule.unique_by_normalized seen l)).
Proof.
  revert seen. induction l as [|[s n] l IH]; intros seen; [intros []|].
  simpl. destruct (Py.in_list n seen) eqn:E.
  - intros [<-|H]; [left; now apply in_list_spec | now apply IH].
  - intros [<-|H]; [right; now left|].
    destruct (IH (set_add n seen) H) as [H1|H1].
    + apply set_add_in in H1 as [->|H1]; [right; now left | now left].
    + right. now right.
Qed.

Lemma unmapped_entry_unresolved (mappings : dict) (e : string * string) :
  unmapped_entry mappings e ->
  Ui.get_module_code_for_session (Str (fst e)) mappings = None.
Proof.
  intros (_ & N & X & M & S). unfold Ui.get_module_code_for_session.
  rewrite X, <- N. destruct (_ || _); [reflexivity|]. now rewrite M, S.
Qed.

(** X13.  Whatever texts pandas makes of the session columns, every entry
    of [get_unmapped_sessions] is one of those texts, stripped, paired with
    its normalised lower-cased text; it is no exam session and
    [get_module_code_for_session] leaves it without a code; no normalised
    text is listed twice. *)
Theorem unmapped_sessions_sound (all_sessions : list string)
    (mappings : dict) :
  Forall (fun e =>
            (exists s, In s all_sessions /\ fst e = Py.strip s) /\
            snd e = Py.lower (normalize_session_text (Str (fst e))) /\
            is_exam_session (Str (fst e)) = false /\
            Ui.get_module_code_for_session (Str (fst e)) mappings = None)
         (UiSchedule.get_unmapped_sessions all_sessions mappings) /\
  NoDup (map snd (UiSchedule.get_unmapped_sessions all_sessions mappings)).
Proof.
  unfold UiSchedule.get_unmapped_sessions. split; [|apply unique_NoDup].
  apply Forall_forall. intros e H. apply unique_in in H as [H _].
  apply unmapped_entries_in in H as [Hs He].
  split; [exact Hs|]. pose proof (unmapped_entry_unresolved _ _ He) as Hn.
  destruct He as (_ & N & X & _). auto.
Qed.

(** X14.  One of the texts that pandas makes of the session columns, if it
    is no exam session, if its normalised text is neither empty nor a
    placeholder and if [get_module_code_for_session] returns [None] for it,
    has its normalised text in the list of [get_unmapped_sessions]: the
    matching that this function repeats for itself leaves out no text that
    the classification leaves without a code. *)
Theorem unresolved_sessions_are_listed (all_sessions : list string)
    (mappings : dict) (s : string) :
  In s all_sessions ->
  is_exam_session (Str s) = false ->
  Py.lower (normalize_session_text (Str s)) <> "" ->
  Py.in_list (Py.lower (normalize_session_text (Str s))) placeholders = false ->
  Ui.get_module_code_for_session (Str s) mappings = None ->
  In (Py.lower (normalize_session_text (Str s)))
     (map snd (UiSchedule.get_unmapped_sessions all_sessions mappings)).
Proof.
  intros Hs X Hne P Hget.
  set (n := Py.lower (normalize_session_text (Str s))) in *.
  assert (He : In (Py.strip s, n)
                  (UiSchedule.unmapped_entries all_sessions mappings)).
  { apply unmapped_entries_in. split; [now exists s|].
    unfold unmapped_entry. cbn [fst snd].
    rewrite normalize_strip, is_exam_session_strip. fold n.
    rewrite (ui_lookup (Str s) mappings X Hne P) in Hget. fold n in Hget.
    assert (M : dict_mem mappings n = false).
    { destruct (dict_mem mappings n) eqn:M; [|reflexivity].
      unfold dict_mem in M. destruct (dict_get mappings n); discriminate. }
    rewrite M in Hget.
    split; [|auto].
    unfold worth_mapping. apply andb_true_iff. split.
    - destruct (Py.strip s) eqn:E; [|reflexivity].
      exfalso. apply Hne. unfold n, normalize_session_text. now rewrite E.
    - apply negb_true_iff.
      destruct (Py.in_list (Py.lower (Py.strip s)) placeholders) eqn:Q;
        [|reflexivity].
      apply placeholder_text_skipped in Q as [_ Q].
      rewrite normalize_strip in Q. fold n in Q. congruence. }
  destruct (unique_complete [] _ _ He) as [[]|H]. exact H.
Qed.

Lemma unresolved_sessions_are_listed_witness :
  let all_sessions :=
    ["DSA Lecture"; "Networks - Dr Silva"; " Networks Lab "] in
  In " Networks Lab " all_sessions /\
  is_exam_session (Str " Networks Lab ") = false /\
  Py.lower (normalize_session_text (Str " Networks Lab ")) = "networks" /\
  Ui.get_module_code_for_session (Str " Networks Lab ") [("dsa", "DSA")]
  = None /\
  UiSchedule.get_unmapped_sessions all_sessions [("dsa", "DSA")]
  = [("Networks - Dr Silva", "networks")] /\
  In "networks"
     (map snd (UiSchedule.get_unmapped_sessions all_sessions
                 [("dsa", "DSA")])).
Proof.
  cbv zeta.
  assert (Hin : In " Networks Lab "
                  ["DSA Lecture"; "Networks - Dr Silva"; " Networks Lab "])
    by (simpl; auto).
  assert (Hne : Py.lower (normalize_session_text (Str " Networks Lab ")) <> "")
    by discriminate.
  split; [exact Hin | split; [reflexivity | split; [reflexivity |
    split; [reflexivity | split; [reflexivity|]]]]].
  exact (unresolved_sessions_are_listed
           ["DSA Lecture"; "Networks - Dr Silva"; " Networks Lab "]
           [("dsa", "DSA")] " Networks Lab " Hin eq_refl Hne eq_refl eq_refl).
Defined.

(** ** Validated input *)

Section ValidatedInput.
Variable int_of_str : string -> option Z.

(** X15.  [get_valid_missed_sessions] skips every line that [int] does not
    read or reads as a number out of the range from 0 to the total, and
    returns the number read from the first other line, leaving the input
    after that line; it ends in [EOFError] exactly when no line of the
    input is acceptable.  This holds whatever [int] accepts. *)
Theorem missed_sessions_in_range (total_sessions : Z) (input : list string) :
  match CliInput.get_valid_missed_sessions int_of_str total_sessions input with
  | Ok (missed, rest) =>
      (0 <= missed <= total_sessions)%Z /\
      exists skipped line,
        input = (skipped ++ line :: rest)%list /\
        forallb (rejected_missed int_of_str total_sessions) skipped = true /\
        int_of_str line = Some missed
  | Raise e =>
      e = EOFError /\
      forallb (rejected_missed int_of_str total_sessions) input = true
  end.
Proof.
  induction input as [|line input IH]; [now split|]. simpl.
  unfold rejected_missed at 2.
  destruct (int_of_str line) as [missed|] eqn:E.
  - destruct ((0 <=? missed)%Z && (missed <=? total_sessions)%Z) eqn:R.
    + apply andb_true_iff in R as [R1 R2].
      apply Z.leb_le in R1, R2. split; [lia|]. now exists [], line.
    + destruct (CliInput.get_valid_missed_sessions _ _ input)
        as [[m rest]|e]; [|exact IH].
      destruct IH as (H & skipped & l & -> & Hs & Hl). split; [exact H|].
      exists (line :: skipped), l. simpl. unfold rejected_missed at 1.
      rewrite E, R. auto.
  - destruct (CliInput.get_valid_missed_sessions _ _ input)
      as [[m rest]|e]; [|exact IH].
    destruct IH as (H & skipped & l & -> & Hs & Hl). split; [exact H|].
    exists (line :: skipped), l. simpl. unfold rejected_missed at 1.
    rewrite E. auto.
Qed.

(** X16.  [get_valid_module_choice] skips every line that [int] does not
    read or reads as a number out of the range from 1 to the number of
    modules, and returns one less than the number read from the first other
    line, which is a valid index of the module list, leaving the input after
    that line; it ends in [EOFError] exactly when no line of the input is
    acceptable. *)
Theorem module_choice_is_an_index (modules : list string)
    (input : list string) :
  match CliInput.get_valid_module_choice int_of_str modules input with
  | Ok (index, rest) =>
      (0 <= index < Z.of_nat (length modules))%Z /\
      (exists module_name,
         nth_error modules (Z.to_nat index) = Some module_name) /\
      exists skipped line,
        input = (skipped ++ line :: rest)%list /\
        forallb (rejected_choice int_of_str modules) skipped = true /\
        int_of_str line = Some (index + 1)%Z
  | Raise e =>
      e = EOFError /\
      forallb (rejected_choice int_of_str modules) input = true
  end.
Proof.
  induction input as [|line input IH]; [now split|]. simpl.
  unfold rejected_choice at 2.
  destruct (int_of_str line) as [choice|] eqn:E.
  - destruct ((1 <=? choice)%Z && (choice <=? Z.of_nat (length modules))%Z)
      eqn:R.
    + apply andb_true_iff in R as [R1 R2].
      apply Z.leb_le in R1, R2. split; [lia|]. split.
      * destruct (nth_error modules (Z.to_nat (choice - 1))) eqn:N; [eauto|].
        apply nth_error_None in N. lia.
      * exists [], line. split; [reflexivity|]. split; [reflexivity|].
        rewrite E. f_equal. lia.
    + destruct (CliInput.get_valid_module_choice _ _ input)
        as [[m rest]|e]; [|exact IH].
      destruct IH as (H & Hn & skipped & l & -> & Hs & Hl).
      split; [exact H|]. split; [exact Hn|].
      exists (line :: skipped), l. simpl. unfold rejected_choice at 1.
      rewrite E, R. auto.
  - destruct (CliInput.get_valid_module_choice _ _ input)
      as [[m rest]|e]; [|exact IH].
    destruct IH as (H & Hn & skipped & l & -> & Hs & Hl).
    split; [exact H|]. split; [exact Hn|].
    exists (line :: skipped), l. simpl. unfold rejected_choice at 1.
    rewrite E. auto.
Qed.

End ValidatedInput.

(** ** The allowance against the threshold *)

Section Allowance.
Local Open Scope Z_scope.

(** X17.  For a total below [3 * 2^49] and a number of missed sessions
    between 0 and the total: the sessions needed never exceed 80 per cent of
    the total; a positive allowance, once used up, leaves exactly the
    sessions needed as attended; the allowance is 0 exactly when no more
    than that is attended already; and when the total is no multiple of 5
    the sessions needed are strictly less than 80 per cent of the total. *)
Theorem allowance_is_measured_against_the_floor (total missed : Z) :
  0 <= total < 1688849860263936 -> 0 <= missed <= total ->
  exists allowance needed,
    holiday_allowance total missed = Ok (allowance, needed) /\
    0 <= needed <= total /\
    100 * needed <= 80 * total < 100 * (needed + 1) /\
    0 <= allowance <= total - missed /\
    (0 < allowance -> total - missed - allowance = needed) /\
    (allowance = 0 <-> total - missed <= needed) /\
    (total mod 5 <> 0 -> 100 * needed < 80 * total).
Proof.
  intros Ht Hm.
  exists (Z.max 0 (total - total * 80 / 100 - missed)), (total * 80 / 100).
  split.
  - unfold holiday_allowance, calculate_holiday_allowance.
    rewrite fraction_80. cbn [bind].
    pose proof (min_sessions_needed_floor total Ht) as H.
    destruct (int_mul_float total (S754_finite false mantissa_80 (-53)))
      as [product|e]; cbn [bind] in *; [|discriminate].
    now rewrite H.
  - pose proof (Z.div_mod (total * 80) 100 ltac:(lia)) as Hdiv.
    pose proof (Z.mod_pos_bound (total * 80) 100 ltac:(lia)) as Hmod.
    pose proof (Z.div_mod total 5 ltac:(lia)) as Hdiv5.
    pose proof (Z.mod_pos_bound total 5 ltac:(lia)) as Hmod5.
    set (needed := total * 80 / 100) in *.
    repeat split; try lia.
Qed.

Lemma allowance_is_measured_against_the_floor_witness :
  0 <= 21 < 1688849860263936 /\ 0 <= 0 <= 21 /\
  holiday_allowance 21 0 = Ok (5, 16) /\
  exists allowance needed,
    holiday_allowance 21 0 = Ok (allowance, needed) /\
    0 <= needed <= 21 /\
    100 * needed <= 80 * 21 < 100 * (needed + 1) /\
    0 <= allowance <= 21 - 0 /\
    (0 < allowance -> 21 - 0 - allowance = needed) /\
    (allowance = 0 <-> 21 - 0 <= needed) /\
    (21 mod 5 <> 0 -> 100 * needed < 80 * 21).
Proof.
  assert (H1 : 0 <= 21 < 1688849860263936) by lia.
  assert (H2 : 0 <= 0 <= 21) by lia.
  split; [exact H1 | split; [exact H2 | split; [vm_compute; reflexivity|]]].
  exact (allowance_is_measured_against_the_floor 21 0 H1 H2).
Defined.

End Allowance.

(** ** The slot of a session column *)

Lemma split_on_no_underscore (s : string) :
  no_underscore s = true -> split_on "_" s = [s].
Proof.
  induction s as [|c s IH]; [reflexivity|]. simpl.
  intros H. apply andb_true_iff in H as [Hc Hs]. apply negb_true_iff in Hc.
  now rewrite Hc, (IH Hs).
Qed.

Lemma decimal_no_underscore (d : Decimal.uint) :
  no_underscore (NilEmpty.string_of_uint d) = true.
Proof. induction d; simpl; auto. Qed.

Lemma extra_num_of_extra (d : string) :
  no_underscore d = true -> extra_num_of ("Extra_" ++ d) = d.
Proof.
  intros H. unfold extra_num_of.
  assert (Hc : Py.contains "_" ("Extra_" ++ d) = true) by reflexivity.
  rewrite Hc.
  assert (Hs : split_on "_" ("Extra_" ++ d) = ["Extra"; d]).
  { cbn [append]. simpl split_on. now rewrite (split_on_no_underscore d H). }
  now rewrite Hs.
Qed.

(** X9.  The slot shown for a session column: Morning and Afternoon for the
    two named columns, and for the [i]-th extra column that the loader named
    the slot [Extra_] with the same number [i], read back from the label. *)
Theorem slot_of_loaded_column (n i : nat) :
  i < n ->
  time_slot_of "Morning" = SlotMorning /\
  time_slot_of "Afternoon" = SlotAfternoon /\
  nth_error (extra_columns n) i
  = Some ("Extra_" ++ NilEmpty.string_of_uint (Nat.to_uint i)) /\
  time_slot_of ("Extra_" ++ NilEmpty.string_of_uint (Nat.to_uint i))
  = SlotExtra (NilEmpty.string_of_uint (Nat.to_uint i)).
Proof.
  intros Hi. split; [reflexivity | split; [reflexivity | split]].
  - unfold extra_columns. rewrite nth_error_map, nth_error_nth' with (d := 0)
      by (rewrite length_seq; exact Hi).
    now rewrite seq_nth.
  - change (time_slot_of ("Extra_" ++ NilEmpty.string_of_uint (Nat.to_uint i)))
      with (SlotExtra (extra_num_of
              ("Extra_" ++ NilEmpty.string_of_uint (Nat.to_uint i)))).
    now rewrite extra_num_of_extra by apply decimal_no_underscore.
Qed.

Lemma slot_of_loaded_column_witness :
  2 < 3 /\
  nth_error (extra_columns 3) 2 = Some "Extra_2" /\
  time_slot_of "Extra_2" = SlotExtra "2".
Proof.
  assert (H : 2 < 3) by lia.
  split; [exact H|].
  exact (proj2 (proj2 (slot_of_loaded_column 3 2 H))).
Defined.

(** X1.  A normalised label has no leading or trailing whitespace, and every
    whitespace character in it is a single space between two characters
    that are no whitespace. *)
Theorem normalized_text_is_tidy (x : cell) :
  Py.strip (normalize_session_text x) = normalize_session_text x /\
  collapsed (normalize_session_text x) = true /\
  starts_nonspace (normalize_session_text x) = true.
Proof.
  destruct (normalize_shape x) as [H1 H2]. split; [exact H1 | split; [exact H2|]].
  rewrite <- H1. unfold Py.strip. apply rstrip_starts, lstrip_starts.
Qed.
